(** * timezones.fields: a shallow embedding of the time-zone aware model fields

    The module [timezones/fields.py] defines two Django model fields:
    [TimeZoneField], a character column holding a zone identifier, and
    [TestDateTimeField], a date-time column kept in UTC whose attribute is
    read and written in the time zone of the record.  The attribute is
    intercepted by [TestDateTimeDescriptor]; the zone of a record is found
    by [get_timezone].

    Python objects live in a store ([heap]) and are referred to by
    location, so that an instance dictionary that is changed through one
    reference is changed for every holder of that reference.  Code that
    can raise returns a [res]; code that also touches instance
    dictionaries runs in the monad [M]. *)

From Stdlib Require Import ZArith Lia Ascii String.
From stdpp Require Import base option gmap strings list fin_maps.

Local Open Scope string_scope.

(** ** Exceptions and results *)

Inductive exn :=
| KeyError | IndexError | AttributeError | TypeError | ValueError
| ValidationError | UnknownTimeZoneError | FieldError
| InvalidTimeZone | MisconfiguredMaxLength.

Inductive res (A : Type) :=
| Ok (a : A)
| Raise (e : exn).
Arguments Ok {A} a.
Arguments Raise {A} e.

Definition res_bind {A B} (r : res A) (k : A → res B) : res B :=
  match r with
  | Ok a => k a
  | Raise e => Raise e
  end.

Definition res_map {A B} (f : A → B) (r : res A) : res B :=
  res_bind r (λ a, Ok (f a)).

(** ** pytz and datetime

    A [datetime] is a wall-clock reading, counted in microseconds from
    0001-01-01T00:00:00, with an optional [tzinfo].  Readings are unbounded
    integers: the year range of Python's datetime is not modelled.

    A pytz [tzinfo] instance carries the name of its zone, the fixed offset
    of this very instance, and the rules of its zone: the offset that
    [localize] selects for a wall-clock reading (with pytz's default
    [is_dst=False], so it never raises for ambiguous readings) and the
    offset in force at a UTC reading, used by [fromutc]. *)

Module Pytz.

Record tzinfo := TzInfo {
  zone : string;
  utcoffset : Z;
  offset_at_wall : Z → Z;
  offset_at_utc : Z → Z
}.

Record datetime := DateTime {
  wall : Z;
  dt_tzinfo : option tzinfo
}.

(** The instance of zone [z] whose own offset is [off]. *)
Definition at_offset (z : tzinfo) (off : Z) : tzinfo :=
  {| zone := zone z; utcoffset := off;
     offset_at_wall := offset_at_wall z; offset_at_utc := offset_at_utc z |}.

(** [pytz.utc] *)
Definition utc : tzinfo :=
  {| zone := "UTC"; utcoffset := 0;
     offset_at_wall := λ _, 0%Z; offset_at_utc := λ _, 0%Z |}.

(** [tz.localize(dt)]: only for naive values. *)
Definition localize (z : tzinfo) (d : datetime) : res datetime :=
  match dt_tzinfo d with
  | Some _ => Raise ValueError
  | None =>
      Ok {| wall := wall d;
            dt_tzinfo := Some (at_offset z (offset_at_wall z (wall d))) |}
  end.

(** The UTC reading of an aware value. *)
Definition utc_reading (w : Z) (t : tzinfo) : Z := (w - utcoffset t)%Z.

(** [tz.fromutc]: the reading [u], taken in UTC, shown in zone [z]. *)
Definition fromutc (z : tzinfo) (u : Z) : datetime :=
  {| wall := (u + offset_at_utc z u)%Z;
     dt_tzinfo := Some (at_offset z (offset_at_utc z u)) |}.

(** [dt.astimezone(tz)]: only for aware values.  The conversion formula
    is used throughout; Python returns the value itself when [tz] is the
    very object already attached, which is the same result for a zone
    whose rules agree with its instances. *)
Definition astimezone (d : datetime) (z : tzinfo) : res datetime :=
  match dt_tzinfo d with
  | None => Raise ValueError
  | Some t => Ok (fromutc z (utc_reading (wall d) t))
  end.

Definition naive (w : Z) : datetime := {| wall := w; dt_tzinfo := None |}.

(** *** Calendar readings, as [datetime(y, m, d, hh, mm, ss)] builds them *)

Definition is_leap (y : Z) : bool :=
  ((y mod 4 =? 0) && (negb (y mod 100 =? 0) || (y mod 400 =? 0)))%Z.

Definition days_before_year (y : Z) : Z :=
  let y1 := (y - 1)%Z in (y1 * 365 + y1 / 4 - y1 / 100 + y1 / 400)%Z.

Definition days_in_month (y m : Z) : Z :=
  if (m =? 2)%Z then (if is_leap y then 29 else 28)%Z
  else if ((m =? 4) || (m =? 6) || (m =? 9) || (m =? 11))%Z then 30%Z
  else 31%Z.

(** Days of the months before month [m] (1 to 12) of year [y]. *)
Fixpoint days_before_month (y : Z) (m : nat) : Z :=
  match m with
  | O => 0%Z
  | S m' =>
      match m' with
      | O => 0%Z
      | S _ => (days_before_month y m' + days_in_month y (Z.of_nat m'))%Z
      end
  end.

(** [date.toordinal]: 0001-01-01 is day 1. *)
Definition ymd2ord (y : Z) (m : nat) (d : Z) : Z :=
  (days_before_year y + days_before_month y m + d)%Z.

Definition usec : Z := 1000000.
Definition hours (n : Z) : Z := (n * 3600 * usec)%Z.

Definition reading (y : Z) (m : nat) (d hh mm ss : Z) : Z :=
  (((((ymd2ord y m d - 1) * 24 + hh) * 60 + mm) * 60 + ss) * usec)%Z.

End Pytz.
Export Pytz.

(** ** Python values and the object store *)

Abbreviation loc := nat (only parsing).

(** The values the fields meet.  A zero-argument callable is given by the
    outcome of calling it: the value it returns, or the exception it
    raises.  A model instance is a reference into the store. *)
Inductive value :=
| VNone
| VStr (s : string)
| VInt (n : Z)
| VDatetime (d : datetime)
| VTz (z : tzinfo)
| VCallable (returns : value)
| VRaising (raises : exn)
| VRef (l : loc).

(** A model instance: its [__dict__], the attributes found on its class,
    and what its default manager answers to
    [filter(pk=...).values_list(path)]: the first column of each row, and
    no entry for a path that the query compiler cannot resolve. *)
Record object := Object {
  odict : gmap string value;
  oclass : gmap string value;
  oquery : gmap string (list value)
}.

Abbreviation heap := (gmap nat object) (only parsing).

Definition with_dict (o : object) (d : gmap string value) : object :=
  {| odict := d; oclass := oclass o; oquery := oquery o |}.

(** ** The monad of code that raises and updates the store *)

Definition M (A : Type) : Type := heap → res (A * heap).

Definition ret {A} (a : A) : M A := λ h, Ok (a, h).
Definition raise {A} (e : exn) : M A := λ _, Raise e.
Definition bind {A B} (m : M A) (k : A → M B) : M B :=
  λ h, match m h with
       | Ok (a, h') => k a h'
       | Raise e => Raise e
       end.
Definition lift {A} (r : res A) : M A :=
  λ h, match r with Ok a => Ok (a, h) | Raise e => Raise e end.

Notation "'let*' x ':=' c 'in' k" := (bind c (λ x, k))
  (at level 10, x name, c at level 100, k at level 200).

Notation "'let*' ' pat ':=' c 'in' k" :=
  (bind c (λ x, match x with pat => k end))
  (at level 10, pat pattern, c at level 100, k at level 200).

(** The value a computation returns, forgetting the store. *)
Definition returned {A} (r : res (A * heap)) : res A := res_map fst r.

(** [instance.__dict__].  Only model instances have one here.  In Python
    None, strings, numbers and date-times have none either; zone objects
    and functions have one of their own, which the store does not hold,
    and reading it is an [AttributeError] here as well. *)
Definition dict_of (v : value) : M (gmap string value) :=
  λ h, match v with
       | VRef l =>
           match h !! l with
           | Some o => Ok (odict o, h)
           | None => Raise AttributeError
           end
       | _ => Raise AttributeError
       end.

(** [instance.__dict__[k] = v] *)
Definition dict_set (l : loc) (k : string) (v : value) : M unit :=
  λ h, match h !! l with
       | Some o => Ok (tt, <[l := with_dict o (<[k := v]> (odict o))]> h)
       | None => Raise AttributeError
       end.

(** [del instance.__dict__[k]] guarded by [k in instance.__dict__] *)
Definition dict_del_if_present (l : loc) (k : string) : M unit :=
  λ h, match h !! l with
       | Some o => Ok (tt, <[l := with_dict o (delete k (odict o))]> h)
       | None => Raise AttributeError
       end.

(** [instance.__dict__[k]] *)
Definition dict_get (l : loc) (k : string) : M value :=
  let* d := dict_of (VRef l) in
  match d !! k with
  | Some v => ret v
  | None => raise KeyError
  end.

(** [getattr(instance, name)] on a model instance: the instance dictionary,
    then the class.  Descriptors of the class other than those of this
    module are not modelled. *)
Definition getattr (v : value) (name : string) : M value :=
  λ h, match v with
       | VRef l =>
           match h !! l with
           | Some o =>
               match odict o !! name with
               | Some x => Ok (x, h)
               | None =>
                   match oclass o !! name with
                   | Some x => Ok (x, h)
                   | None => Raise AttributeError
                   end
               end
           | None => Raise AttributeError
           end
       | _ => Raise AttributeError
       end.

Definition callable (v : value) : bool :=
  match v with VCallable _ | VRaising _ => true | _ => false end.

(** [f()] *)
Definition call (v : value) : M value :=
  match v with
  | VCallable r => ret r
  | VRaising e => raise e
  | _ => raise TypeError
  end.

Definition is_datetime (v : value) : bool :=
  match v with VDatetime _ => true | _ => false end.

(** [timezone.localize(value)]: a method of pytz zones only. *)
Definition call_localize (timezone : value) (d : datetime) : res datetime :=
  match timezone with
  | VTz z => localize z d
  | _ => Raise AttributeError
  end.

(** [value.astimezone(timezone)]: the argument must be a tzinfo. *)
Definition call_astimezone (d : datetime) (timezone : value) : res datetime :=
  match timezone with
  | VTz z => astimezone d z
  | _ => Raise TypeError
  end.

(** ** Strings *)

(** ['__' in s] *)
Fixpoint has_dunder (s : string) : bool :=
  match s with
  | String "_"%char (String "_"%char _) => true
  | String _ rest => has_dunder rest
  | EmptyString => false
  end.

(** [s.split('__')], with [cur] the piece read so far. *)
Fixpoint split_dunder_from (cur s : string) : list string :=
  match s with
  | EmptyString => [cur]
  | String c rest =>
      match c, rest with
      | "_"%char, String "_"%char rest' => cur :: split_dunder_from "" rest'
      | _, _ => split_dunder_from (cur +:+ String c "") rest
      end
  end.

Definition split_dunder (s : string) : list string := split_dunder_from "" s.

(** ['__'.join(parts)] *)
Fixpoint join_dunder (parts : list string) : string :=
  match parts with
  | [] => ""
  | [p] => p
  | p :: ps => p +:+ "__" +:+ join_dunder ps
  end.

(** [instance.__dict__[k] = v], for an [instance] reached as a value. *)
Definition dict_set_of (instance : value) (k : string) (v : value) : M unit :=
  match instance with
  | VRef l => dict_set l k v
  | _ => raise AttributeError
  end.

(** [instance._default_manager.filter(pk=instance._get_pk_val())
      .values_list(path)[0][0]] *)
Definition values_list_first (instance : value) (path : string) : M value :=
  λ h, match instance with
       | VRef l =>
           match h !! l with
           | Some o =>
               match oquery o !! path with
               | None => Raise FieldError
               | Some [] => Raise IndexError
               | Some (v :: _) => Ok (v, h)
               end
           | None => Raise AttributeError
           end
       | _ => Raise AttributeError
       end.

(** ** The fields *)

Section Fields.

(** [default_tz = pytz.timezone(getattr(settings, "TIME_ZONE", "UTC"))] *)
Variable default_tz : tzinfo.
(** [settings.TIME_ZONE] *)
Variable TIME_ZONE : string.
(** [pytz.timezone(name)]; [None] stands for [UnknownTimeZoneError]. *)
Variable pytz_timezone : string → option tzinfo.
(** [pytz.all_timezones_set], the names pytz lists; [pytz.timezone] may
    accept a name that is not listed. *)
Variable all_timezones_set : gset string.
(** The date-time formats Django's [DateTimeField.to_python] parses. *)
Variable parse_datetime : string → option datetime.
(** [unicode(v)] for values that are neither text nor zones. *)
Variable unicode_of : value → string.
(** [MAX_TIMEZONE_LENGTH = getattr(settings, "MAX_TIMEZONE_LENGTH", 100)] *)
Variable MAX_TIMEZONE_LENGTH : nat.
(** [zones.ALL_TIMEZONE_CHOICES], the recognized zone identifiers, and
    [zones.PRETTY_TIMEZONE_CHOICES], their labels. *)
Variable ALL_TIMEZONE_CHOICES : list string.
Variable PRETTY_TIMEZONE_CHOICES : list (string * string).

(** [db_tz = pytz.utc] *)
Definition db_tz : tzinfo := utc.

(** Django's [smart_unicode]: text as it is, a pytz zone by its name. *)
Definition smart_unicode (v : value) : string :=
  match v with
  | VStr s => s
  | VTz z => zone z
  | _ => unicode_of v
  end.

(** *** TimeZoneField *)

Definition longest (zones : list string) : nat :=
  foldr Nat.max 0 (String.length <$> zones).

(** Modelled from the spec: [timezones.utils.validate_timezone_max_length]
    is not among the sources.  It asserts that the configured maximum
    length is large enough to hold the longest recognized zone name, and
    fails with [MisconfiguredMaxLength] otherwise. *)
Definition validate_timezone_max_length
    (max_length : nat) (zones : list string) : res unit :=
  if (longest zones <=? max_length)%nat then Ok tt
  else Raise MisconfiguredMaxLength.

(** Modelled from the spec: [timezones.utils.coerce_timezone_value] is not
    among the sources.  It turns a string into a validated zone
    representation, or fails with [InvalidTimeZone] if the value is not
    in the enumerated allow-list. *)
Definition coerce_timezone_value (v : value) : res value :=
  let s := smart_unicode v in
  if bool_decide (s ∈ ALL_TIMEZONE_CHOICES) then
    match pytz_timezone s with
    | Some z => Ok (VTz z)
    | None => Raise InvalidTimeZone
    end
  else Raise InvalidTimeZone.

Record TimeZoneField := {
  max_length : nat;
  default_value : value;
  choices : list (string * string)
}.

(** The keyword arguments that [__init__] lets override its defaults. *)
Record kwargs := {
  kw_max_length : option nat;
  kw_default : option value;
  kw_choices : option (list (string * string))
}.

(** [TimeZoneField.__init__]; the constructor of [CharField] takes the
    merged defaults. *)
Definition TimeZoneField_init (kw : kwargs) : res TimeZoneField :=
  res_bind
    (validate_timezone_max_length MAX_TIMEZONE_LENGTH ALL_TIMEZONE_CHOICES)
    (λ _,
      Ok {| max_length := default MAX_TIMEZONE_LENGTH (kw_max_length kw);
            default_value := default (VStr TIME_ZONE) (kw_default kw);
            choices := default PRETTY_TIMEZONE_CHOICES (kw_choices kw) |}).

(** Django's [CharField.to_python] *)
Definition CharField_to_python (v : value) : value :=
  match v with
  | VNone | VStr _ => v
  | _ => VStr (smart_unicode v)
  end.

Definition TimeZoneField_to_python (v : value) : res value :=
  let value := CharField_to_python v in
  match value with
  | VNone => Ok VNone
  | _ => coerce_timezone_value value
  end.

Definition TimeZoneField_get_prep_value (v : value) : value :=
  match v with
  | VNone => v
  | _ => VStr (smart_unicode v)
  end.

Definition TimeZoneField_get_db_prep_save
    {Connection : Type} (v : value) (connection : Connection) : value :=
  TimeZoneField_get_prep_value v.

(** *** TestDateTimeField *)

Record TestDateTimeField := {
  name : string;
  timezone : value
}.

(** [TestDateTimeField.__init__]: the zone given is kept as it is, except
    that a string listed in [pytz.all_timezones_set] is replaced by
    [pytz.timezone] of it.  A string that is not listed stays a string,
    even if [pytz.timezone] would accept it.  [smart_str] leaves a string
    as it is. *)
Definition TestDateTimeField_init (nm : string) (tz : value)
    : res TestDateTimeField :=
  match tz with
  | VStr s =>
      if bool_decide (s ∈ all_timezones_set) then
        match pytz_timezone s with
        | Some z => Ok {| name := nm; timezone := VTz z |}
        | None => Raise UnknownTimeZoneError
        end
      else Ok {| name := nm; timezone := tz |}
  | _ => Ok {| name := nm; timezone := tz |}
  end.

Definition get_attname (field : TestDateTimeField) : string :=
  name field +:+ "_utc".

Definition get_timezone_name (field : TestDateTimeField) : string :=
  name field +:+ "_timezone".

(** Django's [Field.get_cache_name]: ['_%s_cache' % self.name] *)
Definition get_cache_name (field : TestDateTimeField) : string :=
  "_" +:+ name field +:+ "_cache".

(** Django's [DateTimeField.to_python] *)
Definition DateTimeField_to_python (v : value) : res value :=
  match v with
  | VNone => Ok VNone
  | VDatetime _ => Ok v
  | _ =>
      match parse_datetime (smart_unicode v) with
      | Some d => Ok (VDatetime d)
      | None => Raise ValidationError
      end
  end.

(** [if value.tzinfo is None: value = tz.localize(value)] *)
Definition localize_if_naive (tz : tzinfo) (v : value) : res datetime :=
  match v with
  | VDatetime d =>
      match dt_tzinfo d with
      | None => localize tz d
      | Some _ => Ok d
      end
  | _ => Raise AttributeError
  end.

Definition TestDateTimeField_get_prep_value (v : value) : res value :=
  res_bind (DateTimeField_to_python v) (λ value,
    match value with
    | VNone => Ok VNone
    | _ =>
        res_bind (localize_if_naive default_tz value) (λ d,
        res_bind (astimezone d db_tz) (λ d',
        Ok (VDatetime d')))
    end).

(** *** The resolver of a record's zone *)

(** The loop of [get_timezone] over the parts of a lookup path: while
    the related record named by the first part is cached on [instance],
    step to it and drop the part.  Reading the first part of an empty
    list raises [IndexError]. *)
Fixpoint walk_cached (instance : value) (timezone_parts : list string)
    : M (value * list string) :=
  match timezone_parts with
  | [] => raise IndexError
  | first :: rest =>
      let* d := dict_of instance in
      match d !! ("_" +:+ first +:+ "_cache") with
      | Some related => walk_cached related rest
      | None => ret (instance, timezone_parts)
      end
  end.

(** What a cache slot answers for the zone: the zone of a cached
    date-time, or the cached value itself. *)
Definition zone_of_cached (v : value) : value :=
  match v with
  | VDatetime d =>
      match dt_tzinfo d with
      | Some z => VTz z
      | None => VNone
      end
  | _ => v
  end.

(** [if isinstance(timezone, basestring): timezone = pytz.timezone(timezone)] *)
Definition coerce_zone_name (tz : value) : M value :=
  match tz with
  | VStr s =>
      match pytz_timezone s with
      | Some z => ret (VTz z)
      | None => raise UnknownTimeZoneError
      end
  | _ => ret tz
  end.

(** The source-specific part of [get_timezone]: the [instance] that the
    name is bound to afterwards, and the zone found.  The [print] of the
    lookup branch writes to the standard output only and is left out. *)
Definition lookup_timezone (instance : loc) (tz : value) : M (value * value) :=
  if callable tz then
    let* tz := call tz in
    ret (VRef instance, tz)
  else
    match tz with
    | VStr path =>
        if negb (has_dunder path) then
          let* tz := getattr (VRef instance) path in
          let* tz := (if callable tz then call tz else ret tz) in
          ret (VRef instance, tz)
        else
          let* '(instance', timezone_parts) :=
            walk_cached (VRef instance) (split_dunder path) in
          let* tz :=
            (if (1 <? length timezone_parts)%nat
             then values_list_first instance' (join_dunder timezone_parts)
             else getattr instance' (hd "" timezone_parts)) in
          ret (instance', match tz with VNone => VTz default_tz | _ => tz end)
    | _ => raise TypeError
    end.

Definition get_timezone (instance : loc) (tz : value) (cache_name : string)
    : M value :=
  let* d := dict_of (VRef instance) in
  match d !! cache_name with
  | Some cached => ret (zone_of_cached cached)
  | None =>
      let* '(instance', tz) := lookup_timezone instance tz in
      let* tz := coerce_zone_name tz in
      let* _ := dict_set_of instance' cache_name tz in
      ret tz
  end.

(** [getattr(instance, self.field.get_timezone_name())], with the class
    attribute that [contribute_to_class] installs: the default zone when
    the field has no zone, the zone itself when it has one, and
    otherwise a property computed by [get_timezone].  A plain class
    attribute gives way to an entry of the instance dictionary; a
    property does not. *)
Definition instance_timezone (field : TestDateTimeField) (instance : loc)
    : M value :=
  let plain (z : tzinfo) : M value :=
    let* d := dict_of (VRef instance) in
    ret (default (VTz z) (d !! get_timezone_name field)) in
  match timezone field with
  | VNone => plain default_tz
  | VTz z => plain z
  | tz => get_timezone instance tz (get_cache_name field)
  end.

(** *** TestDateTimeDescriptor *)

Definition __set__ (field : TestDateTimeField) (instance : loc) (v : value)
    : M unit :=
  let* _ := dict_set instance (name field) v in
  let* _ := dict_del_if_present instance (get_cache_name field) in
  dict_del_if_present instance (get_attname field).

(** [__get__] on an instance; on the class ([instance is None]) it returns
    the descriptor itself. *)
Definition __get__ (field : TestDateTimeField) (instance : loc) : M value :=
  let cache_name := get_cache_name field in
  let* d := dict_of (VRef instance) in
  match d !! cache_name with
  | Some (VDatetime cached) => ret (VDatetime cached)
  | _ =>
      match d !! get_attname field with
      | Some v =>
          let* v :=
            match v with
            | VNone => ret VNone
            | _ =>
                let* dt := lift (localize_if_naive db_tz v) in
                let* tz := instance_timezone field instance in
                let* dt := lift (call_astimezone dt tz) in
                ret (VDatetime dt)
            end in
          let* _ := dict_set instance cache_name v in
          ret v
      | None =>
          let* v := dict_get instance (name field) in
          match v with
          | VDatetime dt =>
              let* tz := instance_timezone field instance in
              let* dt :=
                lift (match dt_tzinfo dt with
                      | None => call_localize tz dt
                      | Some _ => call_astimezone dt tz
                      end) in
              let* _ := dict_set instance cache_name (VDatetime dt) in
              ret (VDatetime dt)
          | _ => ret v
          end
      end
  end.

Definition get_for_save (field : TestDateTimeField) (instance : loc)
    : M value :=
  let* d := dict_of (VRef instance) in
  match d !! get_attname field with
  | Some v =>
      match v with
      | VNone => ret VNone
      | _ =>
          let* dt := lift (localize_if_naive db_tz v) in
          ret (VDatetime dt)
      end
  | None =>
      let* raw := dict_get instance (name field) in
      let* v := lift (DateTimeField_to_python raw) in
      match v with
      | VNone => ret VNone
      | VDatetime dt =>
          let* dt :=
            match dt_tzinfo dt with
            | None =>
                let* tz := instance_timezone field instance in
                lift (call_localize tz dt)
            | Some _ => ret dt
            end in
          let* dt := lift (astimezone dt db_tz) in
          ret (VDatetime dt)
      | _ => raise AttributeError
      end
  end.

(** The instance dictionary that [__set__] leaves behind. *)
Definition dict_after_set (field : TestDateTimeField) (v : value)
    (d : gmap string value) : gmap string value :=
  delete (get_attname field)
    (delete (get_cache_name field) (<[name field := v]> d)).

(** What [__get__] computes from the raw slot alone. *)
Definition get_from_raw (field : TestDateTimeField) (instance : loc)
    (v : value) : M value :=
  match v with
  | VDatetime dt =>
      let* tz := instance_timezone field instance in
      let* dt :=
        lift (match dt_tzinfo dt with
              | None => call_localize tz dt
              | Some _ => call_astimezone dt tz
              end) in
      let* _ := dict_set instance (get_cache_name field) (VDatetime dt) in
      ret (VDatetime dt)
  | _ => ret v
  end.

(** A date-time put into zone [z]: localized when naive, converted when
    aware. *)
Definition in_zone (z : tzinfo) (dt : datetime) : datetime :=
  match dt_tzinfo dt with
  | None =>
      {| wall := wall dt;
         dt_tzinfo := Some (at_offset z (offset_at_wall z (wall dt))) |}
  | Some t => fromutc z (utc_reading (wall dt) t)
  end.

(** The store after [instance.__dict__[k] = v]. *)
Definition store_set (h : heap) (l : loc) (o : object) (k : string)
    (v : value) : heap :=
  <[l := with_dict o (<[k := v]> (odict o))]> h.

(** What [__get__] computes from the storage slot. *)
Definition get_from_storage (field : TestDateTimeField) (instance : loc)
    (v : value) : M value :=
  let* v :=
    match v with
    | VNone => ret VNone
    | _ =>
        let* dt := lift (localize_if_naive db_tz v) in
        let* tz := instance_timezone field instance in
        let* dt := lift (call_astimezone dt tz) in
        ret (VDatetime dt)
    end in
  let* _ := dict_set instance (get_cache_name field) v in
  ret v.

(** *** Saving: the rest of TestDateTimeField *)

(** What a database connection gives the field: [settings_dict['ENGINE']]
    and Django's [ops.value_to_db_datetime]. *)
Record Connection := {
  ENGINE : string;
  value_to_db_datetime : value → res value
}.

Definition mysql : string := "django.db.backends.mysql".

(** [value.replace(tzinfo=None)] *)
Definition replace_tzinfo_None (v : value) : res value :=
  match v with
  | VDatetime d => Ok (VDatetime (naive (wall d)))
  | VStr _ => Raise TypeError
  | _ => Raise AttributeError
  end.

Definition TestDateTimeField_get_db_prep_value
    (v : value) (connection : Connection) (prepared : bool) : res value :=
  res_bind (if prepared then Ok v else TestDateTimeField_get_prep_value v)
    (λ v,
      res_bind
        (match v with
         | VNone => Ok v
         | _ => if String.eqb (ENGINE connection) mysql
                then replace_tzinfo_None v
                else Ok v
         end)
        (value_to_db_datetime connection)).


(** What Django's [DateTimeField] keeps for the field besides its name:
    the two flags, and the default as [Field.get_default] computes it. *)
Record Options := {
  auto_now : bool;
  auto_now_add : bool;
  field_default : value
}.

(** [pre_save]; [now] is the reading of the clock in UTC, so that
    [datetime.now(db_tz)] is [db_tz.fromutc] of it, and [setattr] on the
    attribute of the field is [__set__]. *)
Definition pre_save (opts : Options) (field : TestDateTimeField)
    (now : Z) (model_instance : loc) (add : bool) : M value :=
  if auto_now opts || (auto_now_add opts && add) then
    let v := VDatetime (fromutc db_tz now) in
    let* _ := __set__ field model_instance v in
    ret v
  else get_for_save field model_instance.

Definition get_default (opts : Options) : res value :=
  TestDateTimeField_get_prep_value (field_default opts).

(** The UTC reading of a date-time that is taken in zone [z] when it is
    naive. *)
Definition utc_instant_in (z : tzinfo) (dt : datetime) : Z :=
  match dt_tzinfo dt with
  | None => (wall dt - offset_at_wall z (wall dt))%Z
  | Some t => utc_reading (wall dt) t
  end.

(** Every part of a lookup path names a related record that is cached, one
    on the other, starting at [instance]. *)
Fixpoint chain_cached (h : heap) (instance : value) (parts : list string)
    : Prop :=
  match parts with
  | [] => True
  | first :: rest =>
      ∃ l o related,
        instance = VRef l ∧ h !! l = Some o
        ∧ odict o !! ("_" +:+ first +:+ "_cache") = Some related
        ∧ chain_cached h related rest
  end.

(** Whether the zone of the field is computed by [get_timezone], that is,
    installed as a property by [contribute_to_class]. *)
Definition zone_is_property (field : TestDateTimeField) : bool :=
  match timezone field with
  | VNone | VTz _ => false
  | _ => true
  end.

(** Whether the resolver, asked for the zone of a record with dictionary
    [d], stays on that record: the source is not a lookup path, or a zone
    is already in the cache slot, or the related record that the path
    starts at is not cached in [d]. *)
Definition resolves_on_record (field : TestDateTimeField)
    (d : gmap string value) : bool :=
  match timezone field with
  | VStr path =>
      if has_dunder path then
        match d !! get_cache_name field with
        | Some _ => true
        | None =>
            match split_dunder path with
            | first :: _ =>
                match d !! ("_" +:+ first +:+ "_cache") with
                | Some _ => false
                | None => true
                end
            | [] => true
            end
        end
      else true
  | _ => true
  end.

(** ** Sample zones and records *)

(** Europe/Moscow, with the rule in force since 2014-10-26: UTC+3. *)
Definition moscow : tzinfo :=
  {| zone := "Europe/Moscow"; utcoffset := hours 3;
     offset_at_wall := λ _, hours 3; offset_at_utc := λ _, hours 3 |}.

(** America/Chicago, with the rules of the year 2021: daylight time from
    2021-03-14 08:00 UTC to 2021-11-07 07:00 UTC. *)
Definition chicago : tzinfo :=
  {| zone := "America/Chicago"; utcoffset := hours (-6);
     offset_at_wall := λ w,
       if ((reading 2021 3 14 3 0 0 <=? w)
           && negb (reading 2021 11 7 1 0 0 <=? w))%Z
       then hours (-5) else hours (-6);
     offset_at_utc := λ u,
       if ((reading 2021 3 14 8 0 0 <=? u)
           && negb (reading 2021 11 7 7 0 0 <=? u))%Z
       then hours (-5) else hours (-6) |}.

(** A small zone catalogue. *)
Definition sample_timezone (s : string) : option tzinfo :=
  if String.eqb s "UTC" then Some utc
  else if String.eqb s "Europe/Moscow" then Some moscow
  else if String.eqb s "America/Chicago" then Some chicago
  else None.

Definition sample_choices : list string :=
  ["UTC"; "Europe/Moscow"; "America/Chicago"].

Definition no_datetime_format (s : string) : option datetime := None.
Definition sample_unicode (v : value) : string := "<object>".

(** The names pytz lists, and a pytz that also accepts the unlisted
    lower-case [utc]. *)
Definition sample_all_timezones : gset string := list_to_set sample_choices.

Definition lenient_timezone (s : string) : option tzinfo :=
  if String.eqb s "utc" then Some utc else sample_timezone s.

(** Keyword arguments that set the maximum length of a zone field. *)
Definition max_length_5 : kwargs :=
  {| kw_max_length := Some 5; kw_default := None; kw_choices := None |}.

Definition max_length_100 : kwargs :=
  {| kw_max_length := Some 100; kw_default := None; kw_choices := None |}.

(** A zone field declared without keyword arguments. *)
Definition no_kwargs : kwargs :=
  {| kw_max_length := None; kw_default := None; kw_choices := None |}.

(** 2021-03-10 09:00:00, naive. *)
Definition nine_o_clock : datetime := naive (reading 2021 3 10 9 0 0).

Definition plain_object (d : gmap string value) : object :=
  {| odict := d; oclass := ∅; oquery := ∅ |}.

(** A field [when] whose zone is fixed to Europe/Moscow, and a record that
    was loaded from storage and read once. *)
Definition when_in_moscow : TestDateTimeField :=
  {| name := "when"; timezone := VTz moscow |}.

Definition loaded_record : gmap nat object :=
  {[ 1 := plain_object
       (<["when_utc" := VDatetime (naive (reading 2020 1 1 0 0 0))]>
        (<["_when_cache" :=
             VDatetime {| wall := reading 2020 1 1 3 0 0;
                          dt_tzinfo := Some moscow |}]> ∅)) ]}.

(** A record whose storage slot holds an aware Moscow date-time. *)
Definition moscow_in_storage : gmap nat object :=
  {[ 1 := plain_object
       {[ "when_utc" :=
            VDatetime {| wall := reading 2021 3 10 9 0 0;
                         dt_tzinfo := Some moscow |} ]} ]}.

(** A record whose storage slot holds [None]. *)
Definition null_in_storage : gmap nat object :=
  {[ 1 := plain_object {[ "when_utc" := VNone ]} ]}.



(** The loaded record after its attribute was assigned nine o'clock. *)
Definition assigned_record : gmap nat object :=
  {[ 1 := plain_object {[ "when" := VDatetime nine_o_clock ]} ]}.

(** A record just loaded from storage: a naive date-time in the storage
    slot and nothing else. *)
Definition fresh_from_storage : gmap nat object :=
  {[ 1 := plain_object
       {[ "when_utc" := VDatetime (naive (reading 2021 3 10 6 0 0)) ]} ]}.

(** A record whose attribute was assigned [None]. *)
Definition blank_record : gmap nat object :=
  {[ 1 := plain_object {[ "when" := VNone ]} ]}.


(** A field [when] whose zone is the attribute [when] of the venue, and a
    record whose venue is cached. *)
Definition when_by_venue_when : TestDateTimeField :=
  {| name := "when"; timezone := VStr "venue__when" |}.

Definition venue_cached : gmap nat object :=
  {[ 1 := plain_object
       (<["when" := VDatetime nine_o_clock]> {[ "_venue_cache" := VRef 2 ]});
     2 := plain_object {[ "when" := VStr "Europe/Moscow" ]} ]}.

(** A field [when] whose zone is the attribute [tz] of the record, and a
    record that was assigned nine o'clock and read while its [tz] was
    Europe/Moscow, and whose [tz] was then set to America/Chicago; and the
    same record without the cached date-time. *)
Definition when_by_tz : TestDateTimeField :=
  {| name := "when"; timezone := VStr "tz" |}.

Definition zone_changed_after_read : gmap nat object :=
  {[ 1 := plain_object
       (<["when" := VDatetime nine_o_clock]>
        (<["tz" := VStr "America/Chicago"]>
         {[ "_when_cache" :=
              VDatetime {| wall := reading 2021 3 10 9 0 0;
                           dt_tzinfo := Some moscow |} ]})) ]}.

Definition zone_changed_unread : gmap nat object :=
  {[ 1 := plain_object
       (<["when" := VDatetime nine_o_clock]>
        {[ "tz" := VStr "America/Chicago" ]}) ]}.

(** The unread record once its zone has been resolved. *)
Definition zone_changed_resolved : gmap nat object :=
  {[ 1 := plain_object
       (<["when" := VDatetime nine_o_clock]>
        (<["tz" := VStr "America/Chicago"]>
         {[ "_when_cache" := VTz chicago ]})) ]}.

(** The record whose zone attribute changed, once [None] is assigned. *)
Definition zone_changed_blank : gmap nat object :=
  {[ 1 := plain_object
       (<["when" := VNone]> {[ "tz" := VStr "America/Chicago" ]}) ]}.

(** The record loaded from storage, once it has been read. *)
Definition read_from_storage : gmap nat object :=
  {[ 1 := plain_object
       (<["when_utc" := VDatetime (naive (reading 2021 3 10 6 0 0))]>
        {[ "_when_cache" :=
             VDatetime {| wall := reading 2021 3 10 9 0 0;
                          dt_tzinfo := Some moscow |} ]}) ]}.

(** The assigned record, once it has been read. *)
Definition assigned_and_read : gmap nat object :=
  {[ 1 := plain_object
       (<["when" := VDatetime nine_o_clock]>
        {[ "_when_cache" :=
             VDatetime {| wall := reading 2021 3 10 9 0 0;
                          dt_tzinfo := Some moscow |} ]}) ]}.

(** A new instance: the default of [default_nine], prepared in the default
    zone America/Chicago, in the storage slot. *)
Definition new_instance : gmap nat object :=
  {[ 1 := plain_object
       {[ "when_utc" :=
            VDatetime {| wall := reading 2021 3 10 15 0 0;
                         dt_tzinfo := Some utc |} ]} ]}.

(** A record of the field [when_by_tz] whose attribute [tz] is [None]. *)
Definition zone_unset_record : gmap nat object :=
  {[ 1 := plain_object
       (<["when" := VDatetime nine_o_clock]> {[ "tz" := VNone ]}) ]}.

(** A venue that is not cached and whose zone the database knows, and the
    record once the zone has been resolved. *)
Definition venue_in_database : gmap nat object :=
  {[ 1 := {| odict := {[ "when" := VDatetime nine_o_clock ]};
             oclass := ∅;
             oquery := {[ "venue__tz" := [VStr "Europe/Moscow"] ]} |} ]}.

Definition venue_in_database_resolved : gmap nat object :=
  {[ 1 := {| odict := <["when" := VDatetime nine_o_clock]>
                        {[ "_when_cache" := VTz moscow ]};
             oclass := ∅;
             oquery := {[ "venue__tz" := [VStr "Europe/Moscow"] ]} |} ]}.

(** A field whose lookup path names two related records, both cached. *)
Definition when_by_venue_city : TestDateTimeField :=
  {| name := "when"; timezone := VStr "venue__city" |}.

Definition venue_and_city_cached : gmap nat object :=
  {[ 1 := plain_object
       (<["when" := VDatetime nine_o_clock]> {[ "_venue_cache" := VRef 2 ]});
     2 := plain_object {[ "_city_cache" := VRef 3 ]};
     3 := plain_object {[ "tz" := VStr "Europe/Moscow" ]} ]}.



(** The options of a field that is filled on every save, and of one that
    is not and whose default is nine o'clock. *)
Definition filled_on_save : Options :=
  {| auto_now := true; auto_now_add := false; field_default := VNone |}.

Definition default_nine : Options :=
  {| auto_now := false; auto_now_add := false;
     field_default := VDatetime nine_o_clock |}.

(** The same two records once the zone of the first has been resolved: the
    zone is memoized in the dictionary of the venue. *)
Definition venue_memoized : gmap nat object :=
  {[ 1 := plain_object
       (<["when" := VDatetime nine_o_clock]> {[ "_venue_cache" := VRef 2 ]});
     2 := plain_object
       (<["when" := VStr "Europe/Moscow"]> {[ "_when_cache" := VTz moscow ]}) ]}.

(** ** Properties *)

Local Open Scope nat_scope.

(** *** The three slots of a record are three different keys *)

Lemma length_append (a b : string) :
  String.length (a +:+ b) = String.length a + String.length b.
Proof. induction a as [|c a IH]; simpl; [done | by rewrite IH]. Qed.

Lemma name_attname field : name field ≠ get_attname field.
Proof.
  unfold get_attname. intros E. apply (f_equal String.length) in E.
  rewrite length_append in E. simpl in E. lia.
Qed.

Lemma name_cache_name field : name field ≠ get_cache_name field.
Proof.
  unfold get_cache_name. intros E. apply (f_equal String.length) in E.
  rewrite !length_append in E. simpl in E. lia.
Qed.

Lemma attname_cache_name field : get_attname field ≠ get_cache_name field.
Proof.
  unfold get_attname, get_cache_name. intros E.
  apply (f_equal String.length) in E.
  rewrite !length_append in E. simpl in E. lia.
Qed.

(** *** What [__set__] leaves behind *)

Lemma set_store field h l o v :
  h !! l = Some o →
  __set__ field l v h
  = Ok (tt, <[l := with_dict o (dict_after_set field v (odict o))]> h).
Proof.
  intros Hl. unfold __set__, bind, dict_set, dict_del_if_present.
  rewrite Hl. rewrite lookup_insert_eq. rewrite lookup_insert_eq.
  rewrite !insert_insert_eq. reflexivity.
Qed.

Lemma dict_after_set_name field v d :
  dict_after_set field v d !! name field = Some v.
Proof.
  unfold dict_after_set.
  rewrite lookup_delete_ne by (apply not_eq_sym, name_attname).
  rewrite lookup_delete_ne by (apply not_eq_sym, name_cache_name).
  apply lookup_insert_eq.
Qed.

Lemma dict_after_set_cache field v d :
  dict_after_set field v d !! get_cache_name field = None.
Proof.
  unfold dict_after_set.
  rewrite lookup_delete_ne by apply attname_cache_name.
  apply lookup_delete_eq.
Qed.

Lemma dict_after_set_attname field v d :
  dict_after_set field v d !! get_attname field = None.
Proof. unfold dict_after_set. apply lookup_delete_eq. Qed.

Lemma dict_after_set_other field v d k :
  k ≠ name field → k ≠ get_cache_name field → k ≠ get_attname field →
  dict_after_set field v d !! k = d !! k.
Proof.
  intros H1 H2 H3. unfold dict_after_set.
  rewrite lookup_delete_ne by done. rewrite lookup_delete_ne by done.
  by rewrite lookup_insert_ne.
Qed.

(** Two dictionaries that agree outside the three slots are the same
    after an assignment. *)
Lemma dict_after_set_forgets field v d d' :
  (∀ k, k ≠ name field → k ≠ get_cache_name field →
        k ≠ get_attname field → d !! k = d' !! k) →
  dict_after_set field v d = dict_after_set field v d'.
Proof.
  intros Hagree. apply map_eq. intros k.
  destruct (decide (k = name field)) as [->|H1].
  { by rewrite !dict_after_set_name. }
  destruct (decide (k = get_cache_name field)) as [->|H2].
  { by rewrite !dict_after_set_cache. }
  destruct (decide (k = get_attname field)) as [->|H3].
  { by rewrite !dict_after_set_attname. }
  rewrite !dict_after_set_other by done. by apply Hagree.
Qed.

(** *** Reading after an assignment *)

Lemma get_raw_only field h l o v :
  h !! l = Some o →
  (∀ c, odict o !! get_cache_name field ≠ Some (VDatetime c)) →
  odict o !! get_attname field = None →
  odict o !! name field = Some v →
  __get__ field l h = get_from_raw field l v h.
Proof.
  intros Hl Hc Ha Hn. unfold __get__, bind at 1, dict_of. rewrite Hl.
  assert (Hraw : (let* v := dict_get l (name field) in
                  get_from_raw field l v) h = get_from_raw field l v h).
  { unfold bind at 1, dict_get, bind at 1, dict_of. rewrite Hl, Hn.
    reflexivity. }
  rewrite Ha.
  destruct (odict o !! get_cache_name field) as [[]|] eqn:E;
    try exact Hraw.
  by destruct (Hc d).
Qed.

(** *** Conversions to UTC *)

Lemma astimezone_utc (w : Z) (t : tzinfo) :
  astimezone {| wall := w; dt_tzinfo := Some t |} db_tz
  = Ok {| wall := (w - utcoffset t)%Z; dt_tzinfo := Some utc |}.
Proof.
  unfold astimezone, fromutc, utc_reading, db_tz, at_offset. simpl.
  by rewrite Z.add_0_r.
Qed.

Lemma localize_naive (z : tzinfo) (w : Z) :
  localize z (naive w)
  = Ok {| wall := w; dt_tzinfo := Some (at_offset z (offset_at_wall z w)) |}.
Proof. reflexivity. Qed.

Lemma localize_utc (w : Z) :
  localize db_tz (naive w) = Ok {| wall := w; dt_tzinfo := Some utc |}.
Proof. reflexivity. Qed.

Lemma naive_eta (d : datetime) : dt_tzinfo d = None → d = naive (wall d).
Proof. destruct d as [w t]. simpl. by intros ->. Qed.

(** *** The resolver and the store *)

(** Destructs the scrutinee of the first [match] of hypothesis [H]. *)
Ltac case_in H :=
  match type of H with
  | context [match ?x with _ => _ end] =>
      let E := fresh "E" in destruct x eqn:E; try discriminate H
  end.

(** Runs a hypothesis that some computation returned: destructs what it
    matches on and inverts the equations between results. *)
Ltac run_inv :=
  repeat match goal with
  | H : Ok _ = Ok _ |- _ => inversion H; clear H; subst
  | H : Raise _ = Ok _ |- _ => discriminate H
  | H : (_, _) = (_, _) |- _ => inversion H; clear H; subst
  | H : context [match ?x with _ => _ end] |- _ => destruct x eqn:?
  end.

Lemma getattr_store v n (h : heap) x h' :
  getattr v n h = Ok (x, h') → h' = h.
Proof.
  unfold getattr. intros H. repeat case_in H; by inversion H.
Qed.

Lemma call_store v (h : heap) x h' : call v h = Ok (x, h') → h' = h.
Proof. destruct v; simpl; unfold ret, raise; intros H; by inversion H. Qed.

Lemma values_list_first_store v p (h : heap) x h' :
  values_list_first v p h = Ok (x, h') → h' = h.
Proof.
  unfold values_list_first. intros H. repeat case_in H; by inversion H.
Qed.

Lemma walk_cached_store parts : ∀ v (h : heap) inst parts' h',
  walk_cached v parts h = Ok ((inst, parts'), h') →
  h' = h ∧ parts' ≠ [] ∧ ∃ l' o', inst = VRef l' ∧ h !! l' = Some o'.
Proof.
  induction parts as [|p rest IH]; intros v h inst parts' h' H.
  { discriminate H. }
  simpl in H. unfold bind, dict_of in H.
  destruct v; try discriminate H.
  destruct (h !! l) as [o|] eqn:Hl; try discriminate H.
  destruct (odict o !! ("_" +:+ p +:+ "_cache")) as [related|] eqn:Hc.
  - by apply IH in H.
  - inversion H; subst. split; [done|]. split; [done|]. by exists l, o.
Qed.

Lemma lookup_timezone_store l tz (h : heap) o inst z h' :
  h !! l = Some o →
  lookup_timezone l tz h = Ok ((inst, z), h') →
  h' = h ∧ ∃ l' o', inst = VRef l' ∧ h !! l' = Some o'.
Proof.
  intros Hl H. unfold lookup_timezone in H.
  destruct (callable tz) eqn:Hcall.
  - unfold bind in H. destruct (call tz h) as [[x h1]|] eqn:Hx; [|done].
    apply call_store in Hx as ->. inversion H; subst. eauto.
  - destruct tz; try discriminate H.
    destruct (has_dunder s) eqn:Hd; simpl in H; unfold bind in H.
    + destruct (walk_cached (VRef l) (split_dunder s) h)
        as [[[i ps] h1]|] eqn:Hw; [|done].
      apply walk_cached_store in Hw as (-> & _ & l' & o' & -> & Hl').
      destruct (1 <? length ps)%nat.
      * destruct (values_list_first (VRef l') (join_dunder ps) h)
          as [[x h2]|] eqn:Hq; [|done].
        apply values_list_first_store in Hq as ->.
        inversion H; subst. eauto.
      * destruct (getattr (VRef l') (hd "" ps) h) as [[x h2]|] eqn:Hq; [|done].
        apply getattr_store in Hq as ->. inversion H; subst. eauto.
    + destruct (getattr (VRef l) s h) as [[x h1]|] eqn:Hq; [|done].
      apply getattr_store in Hq as ->.
      destruct (callable x).
      * destruct (call x h) as [[y h2]|] eqn:Hy; [|done].
        apply call_store in Hy as ->. inversion H; subst. eauto.
      * inversion H; subst. eauto.
Qed.

Lemma coerce_zone_name_store z0 (h : heap) x h' :
  coerce_zone_name z0 h = Ok (x, h') → h' = h.
Proof.
  unfold coerce_zone_name.
  destruct z0; unfold ret; try (intros Hx; by inversion Hx).
  destruct (pytz_timezone s); unfold ret, raise; intros Hx; by inversion Hx.
Qed.

(** The resolver changes the store in one way only: it memoizes the zone
    it returns in the slot [cache_name] of one record. *)
Lemma get_timezone_store l tz c (h : heap) o z h' :
  h !! l = Some o →
  get_timezone l tz c h = Ok (z, h') →
  h' = h ∨ ∃ l' o', h !! l' = Some o' ∧ h' = store_set h l' o' c z.
Proof.
  intros Hl H. unfold get_timezone, bind at 1, dict_of in H. rewrite Hl in H.
  destruct (odict o !! c) as [cached|].
  { inversion H; subst. by left. }
  unfold bind at 1 in H.
  destruct (lookup_timezone l tz h) as [[[inst z0] h1]|] eqn:Hlk; [|done].
  destruct (lookup_timezone_store _ _ _ _ _ _ _ Hl Hlk)
    as (-> & l' & o' & -> & Hl').
  unfold bind at 1 in H.
  destruct (coerce_zone_name z0 h) as [[x h2]|] eqn:Hx; [|done].
  apply coerce_zone_name_store in Hx as ->.
  unfold bind, dict_set_of, dict_set in H. rewrite Hl' in H.
  inversion H; subst. right. by exists l', o'.
Qed.

Lemma instance_timezone_store field l (h : heap) o z h' :
  h !! l = Some o →
  instance_timezone field l h = Ok (z, h') →
  h' = h ∨ ∃ l' o', h !! l' = Some o'
                    ∧ h' = store_set h l' o' (get_cache_name field) z.
Proof.
  intros Hl H. unfold instance_timezone in H.
  assert (Hplain : ∀ t,
    (let* d := dict_of (VRef l) in
     ret (default (VTz t) (d !! get_timezone_name field))) h = Ok (z, h') →
    h' = h).
  { intros t. unfold bind, dict_of, ret. rewrite Hl. intros Hx.
    by inversion Hx. }
  destruct (timezone field) eqn:Htz;
    try (by eapply get_timezone_store);
    left; by eapply Hplain.
Qed.

Lemma instance_timezone_alloc field l (h : heap) o z h' :
  h !! l = Some o →
  instance_timezone field l h = Ok (z, h') →
  ∃ o', h' !! l = Some o'.
Proof.
  intros Hl H.
  destruct (instance_timezone_store _ _ _ _ _ _ Hl H)
    as [-> | (l' & o' & Hl' & ->)]; [by eauto|].
  unfold store_set. destruct (decide (l' = l)) as [->|Hne].
  - rewrite lookup_insert_eq. eauto.
  - rewrite lookup_insert_ne by done. eauto.
Qed.

Lemma into_zone (z : tzinfo) (dt : datetime) :
  match dt_tzinfo dt with
  | None => call_localize (VTz z) dt
  | Some _ => call_astimezone dt (VTz z)
  end = Ok (in_zone z dt).
Proof.
  unfold in_zone, call_localize, call_astimezone, localize, astimezone.
  by destruct (dt_tzinfo dt).
Qed.

Lemma get_fast_path field (h : heap) l o cached :
  h !! l = Some o →
  odict o !! get_cache_name field = Some (VDatetime cached) →
  __get__ field l h = Ok (VDatetime cached, h).
Proof.
  intros Hl Hc. unfold __get__, bind, dict_of. by rewrite Hl, Hc.
Qed.

Lemma get_from_raw_datetime field (h : heap) l o dt z h1 :
  h !! l = Some o →
  instance_timezone field l h = Ok (VTz z, h1) →
  ∃ o1, h1 !! l = Some o1 ∧
    get_from_raw field l (VDatetime dt) h
    = Ok (VDatetime (in_zone z dt),
          store_set h1 l o1 (get_cache_name field) (VDatetime (in_zone z dt))).
Proof.
  intros Hl Htz.
  destruct (instance_timezone_alloc _ _ _ _ _ _ Hl Htz) as [o1 Hl1].
  exists o1. split; [done|].
  unfold get_from_raw, bind at 1. rewrite Htz.
  unfold bind at 1, lift. rewrite into_zone.
  unfold bind, dict_set. by rewrite Hl1.
Qed.

(** C3.  For every record and every value [v], [__set__] stores [v] in
    the raw slot whatever it is and removes the cache slot and the storage
    slot.  So while a read finds a cached date-time and returns it, the
    read that follows an assignment is computed from the new value: a
    value that is not a date-time comes back as it is, and a date-time
    comes back put into the zone of the record. *)
Theorem C3_set_stores_and_invalidates field (h : heap) l o v :
  h !! l = Some o →
  let d' := dict_after_set field v (odict o) in
  let h' := <[l := with_dict o d']> h in
  __set__ field l v h = Ok (tt, h')
  ∧ d' !! name field = Some v
  ∧ d' !! get_cache_name field = None
  ∧ d' !! get_attname field = None
  ∧ (∀ stale, odict o !! get_cache_name field = Some (VDatetime stale) →
       __get__ field l h = Ok (VDatetime stale, h))
  ∧ (is_datetime v = false → __get__ field l h' = Ok (v, h'))
  ∧ (∀ dt z h'', v = VDatetime dt →
       instance_timezone field l h' = Ok (VTz z, h'') →
       ∃ o'', h'' !! l = Some o'' ∧
         __get__ field l h'
         = Ok (VDatetime (in_zone z dt),
               store_set h'' l o'' (get_cache_name field)
                 (VDatetime (in_zone z dt)))).
Proof.
  intros Hl d' h'.
  assert (Hl' : h' !! l = Some (with_dict o d')) by apply lookup_insert_eq.
  assert (Hget : __get__ field l h' = get_from_raw field l v h').
  { apply (get_raw_only field h' l (with_dict o d') v Hl'); simpl.
    - intros c. subst d'. by rewrite dict_after_set_cache.
    - apply dict_after_set_attname.
    - apply dict_after_set_name. }
  split; [by apply set_store|].
  split; [apply dict_after_set_name|].
  split; [apply dict_after_set_cache|].
  split; [apply dict_after_set_attname|].
  split; [intros stale Hc; by eapply get_fast_path|].
  split.
  - intros Hv. rewrite Hget. by destruct v.
  - intros dt z h'' -> Htz. rewrite Hget.
    by eapply get_from_raw_datetime.
Qed.

(** C6.  [__get__] on a record: a date-time in the cache slot is returned
    unchanged; otherwise a date-time in the storage slot is taken as UTC
    (localized when naive), converted into the zone of the record, stored
    in the cache slot and returned; otherwise a raw value that is not a
    date-time is returned unchanged, and no zone is resolved. *)
Theorem C6_get_cases field (h : heap) l o :
  h !! l = Some o →
  (∀ cached, odict o !! get_cache_name field = Some (VDatetime cached) →
     __get__ field l h = Ok (VDatetime cached, h))
  ∧ (∀ dt z h1,
       (∀ c, odict o !! get_cache_name field ≠ Some (VDatetime c)) →
       odict o !! get_attname field = Some (VDatetime dt) →
       instance_timezone field l h = Ok (VTz z, h1) →
       ∃ as_utc o1,
         localize_if_naive db_tz (VDatetime dt) = Ok as_utc
         ∧ dt_tzinfo as_utc = Some (default utc (dt_tzinfo dt))
         ∧ h1 !! l = Some o1
         ∧ __get__ field l h
           = Ok (VDatetime (in_zone z as_utc),
                 store_set h1 l o1 (get_cache_name field)
                   (VDatetime (in_zone z as_utc))))
  ∧ (∀ v,
       (∀ c, odict o !! get_cache_name field ≠ Some (VDatetime c)) →
       odict o !! get_attname field = None →
       odict o !! name field = Some v →
       is_datetime v = false →
       __get__ field l h = Ok (v, h)).
Proof.
  intros Hl. split; [intros c Hc; by eapply get_fast_path|]. split.
  - intros dt z h1 Hc Ha Htz.
    destruct (instance_timezone_alloc _ _ _ _ _ _ Hl Htz) as [o1 Hl1].
    assert (∃ as_utc, localize_if_naive db_tz (VDatetime dt) = Ok as_utc
                      ∧ dt_tzinfo as_utc = Some (default utc (dt_tzinfo dt)))
      as (as_utc & Hloc & Hz).
    { unfold localize_if_naive, localize.
      destruct (dt_tzinfo dt) eqn:E; eexists; (split; [reflexivity|]);
        simpl; by rewrite ?E. }
    exists as_utc, o1. split; [done|]. split; [done|]. split; [done|].
    unfold __get__, bind at 1, dict_of. rewrite Hl, Ha.
    assert (Hrun :
      (let* v := (let* dt0 := lift (localize_if_naive db_tz (VDatetime dt)) in
                  let* tz := instance_timezone field l in
                  let* dt1 := lift (call_astimezone dt0 tz) in
                  ret (VDatetime dt1)) in
       let* _ := dict_set l (get_cache_name field) v in ret v) h
      = Ok (VDatetime (in_zone z as_utc),
            store_set h1 l o1 (get_cache_name field)
              (VDatetime (in_zone z as_utc)))).
    { unfold bind at 1, bind at 1, lift at 1. rewrite Hloc.
      unfold bind at 1. rewrite Htz.
      unfold bind at 1, lift, call_astimezone, astimezone, in_zone.
      rewrite Hz. unfold ret, bind, dict_set. by rewrite Hl1. }
    destruct (odict o !! get_cache_name field) as [[]|] eqn:E;
      try exact Hrun.
    by destruct (Hc d).
  - intros v Hc Ha Hn Hv.
    rewrite (get_raw_only field h l o v Hl Hc Ha Hn). by destruct v.
Qed.

(** *** Values for storage *)

Lemma get_prep_value_naive (w : Z) :
  TestDateTimeField_get_prep_value (VDatetime (naive w))
  = Ok (VDatetime {| wall := (w - offset_at_wall default_tz w)%Z;
                     dt_tzinfo := Some utc |}).
Proof.
  unfold TestDateTimeField_get_prep_value, res_bind, astimezone, fromutc,
    utc_reading; simpl.
  by rewrite Z.add_0_r.
Qed.

Lemma get_prep_value_aware (w : Z) (t : tzinfo) :
  TestDateTimeField_get_prep_value
    (VDatetime {| wall := w; dt_tzinfo := Some t |})
  = Ok (VDatetime {| wall := (w - utcoffset t)%Z; dt_tzinfo := Some utc |}).
Proof.
  unfold TestDateTimeField_get_prep_value, res_bind, astimezone, fromutc,
    utc_reading; simpl.
  by rewrite Z.add_0_r.
Qed.

(** C1.  On a record whose zone resolves to [z], after [__set__] of a
    naive date-time, [get_for_save] returns that date-time localized into
    [z] and then converted to UTC.  This is not the value localized into
    the process default zone, which is what [get_prep_value] gives: the
    two differ as soon as the two zones are at different offsets. *)
Theorem C1_naive_is_localized_in_resolved_zone
    field (h : heap) l o (w : Z) z h1 h2 :
  h !! l = Some o →
  __set__ field l (VDatetime (naive w)) h = Ok (tt, h1) →
  instance_timezone field l h1 = Ok (VTz z, h2) →
  ∃ local,
    localize z (naive w) = Ok local
    ∧ astimezone local db_tz
      = Ok {| wall := (w - offset_at_wall z w)%Z; dt_tzinfo := Some utc |}
    ∧ get_for_save field l h1
      = Ok (VDatetime {| wall := (w - offset_at_wall z w)%Z;
                         dt_tzinfo := Some utc |}, h2)
    ∧ (offset_at_wall z w ≠ offset_at_wall default_tz w →
       returned (get_for_save field l h1)
       ≠ TestDateTimeField_get_prep_value (VDatetime (naive w))).
Proof.
  intros Hl Hset Htz. rewrite (set_store field h l o _ Hl) in Hset.
  inversion Hset as [Hh1]. clear Hset. subst h1.
  set (d' := dict_after_set field (VDatetime (naive w)) (odict o)) in *.
  set (h1 := <[l := with_dict o d']> h) in *.
  assert (Hl1 : h1 !! l = Some (with_dict o d')) by apply lookup_insert_eq.
  assert (Hsave : get_for_save field l h1
    = Ok (VDatetime {| wall := (w - offset_at_wall z w)%Z;
                       dt_tzinfo := Some utc |}, h2)).
  { unfold get_for_save, bind at 1, dict_of. rewrite Hl1. simpl.
    subst d'. rewrite dict_after_set_attname.
    unfold bind at 1, dict_get, bind at 1, dict_of. rewrite Hl1. simpl.
    rewrite dict_after_set_name. unfold ret, bind at 1, lift. simpl.
    unfold bind at 1, bind at 1. rewrite Htz. simpl.
    unfold bind, lift, astimezone, fromutc, utc_reading. simpl.
    by rewrite Z.add_0_r. }
  eexists. split; [apply localize_naive|].
  split; [apply astimezone_utc|]. split; [exact Hsave|].
  intros Hoff. rewrite Hsave, get_prep_value_naive.
  unfold returned, res_map. simpl. intros E. inversion E. lia.
Qed.

(** C5.  [get_prep_value] of the date-time field first passes the value
    through [to_python]; a naive date-time is then localized in the process
    default zone, and the result is converted to UTC.  No record takes part
    in it.  [None] stays [None]. *)
Theorem C5_get_prep_value_uses_default_zone :
  TestDateTimeField_get_prep_value VNone = Ok VNone
  ∧ (∀ dt, DateTimeField_to_python (VDatetime dt) = Ok (VDatetime dt))
  ∧ (∀ v, TestDateTimeField_get_prep_value v
          = res_bind (DateTimeField_to_python v) (λ value,
              match value with
              | VNone => Ok VNone
              | _ =>
                  res_bind (localize_if_naive default_tz value) (λ d,
                  res_map VDatetime (astimezone d db_tz))
              end))
  ∧ (∀ w, localize_if_naive default_tz (VDatetime (naive w))
          = localize default_tz (naive w)
          ∧ TestDateTimeField_get_prep_value (VDatetime (naive w))
            = Ok (VDatetime {| wall := (w - offset_at_wall default_tz w)%Z;
                               dt_tzinfo := Some utc |}))
  ∧ (∀ w t, TestDateTimeField_get_prep_value
              (VDatetime {| wall := w; dt_tzinfo := Some t |})
            = Ok (VDatetime {| wall := (w - utcoffset t)%Z;
                               dt_tzinfo := Some utc |})).
Proof.
  split; [reflexivity|]. split; [reflexivity|]. split; [reflexivity|].
  split.
  - intros w. split; [reflexivity | apply get_prep_value_naive].
  - apply get_prep_value_aware.
Qed.

(** C10.  [get_prep_value] of the zone field, and [get_db_prep_save] with
    it, returns [None] for [None] and otherwise the text of the value: a
    zone object is stored by its identifier, and a string is stored as it
    is, whether or not it names a recognized zone. *)
Theorem C10_timezone_prep_value_is_text :
  TimeZoneField_get_prep_value VNone = VNone
  ∧ (∀ v, TimeZoneField_get_prep_value v
          = match v with VNone => VNone | _ => VStr (smart_unicode v) end)
  ∧ (∀ z, TimeZoneField_get_prep_value (VTz z) = VStr (zone z))
  ∧ (∀ s, TimeZoneField_get_prep_value (VStr s) = VStr s)
  ∧ (∀ (Connection : Type) v (connection : Connection),
       TimeZoneField_get_db_prep_save v connection
       = TimeZoneField_get_prep_value v).
Proof.
  split; [reflexivity|]. split; [by intros []|].
  split; [reflexivity|]. split; reflexivity.
Qed.

(** *** The zone field *)

Lemma longest_bound (zones : list string) (n : nat) :
  longest zones ≤ n ↔ ∀ z, z ∈ zones → String.length z ≤ n.
Proof.
  unfold longest. induction zones as [|z zones IH];
    [simpl | rewrite fmap_cons; cbn [foldr]].
  - split; [intros _ z Hz; by apply elem_of_nil in Hz | lia].
  - split.
    + intros Hmax y Hy. apply elem_of_cons in Hy as [->|Hy]; [lia|].
      apply IH; [lia | done].
    + intros Hall.
      assert (String.length z ≤ n) by (apply Hall; by left).
      assert (foldr Nat.max 0 (String.length <$> zones) ≤ n).
      { apply IH. intros y Hy. apply Hall. by right. }
      lia.
Qed.

(** C8, as the code has it.  Constructing a zone field first checks that
    the setting [MAX_TIMEZONE_LENGTH] holds the longest recognized zone
    identifier, that is, every one of them.  If it does not, construction
    fails with [MisconfiguredMaxLength] and there is no field to use,
    whatever maximum length the keyword arguments give; if it does, the
    field is constructed, and its maximum length is the one of the keyword
    arguments, unchecked, or else the setting. *)
Theorem C8_max_length_checked_at_construction (kw : kwargs) :
  (longest ALL_TIMEZONE_CHOICES ≤ MAX_TIMEZONE_LENGTH
   ↔ ∀ z, z ∈ ALL_TIMEZONE_CHOICES → String.length z ≤ MAX_TIMEZONE_LENGTH)
  ∧ (longest ALL_TIMEZONE_CHOICES ≤ MAX_TIMEZONE_LENGTH →
     TimeZoneField_init kw
     = Ok {| max_length := default MAX_TIMEZONE_LENGTH (kw_max_length kw);
             default_value := default (VStr TIME_ZONE) (kw_default kw);
             choices := default PRETTY_TIMEZONE_CHOICES (kw_choices kw) |})
  ∧ (MAX_TIMEZONE_LENGTH < longest ALL_TIMEZONE_CHOICES →
     TimeZoneField_init kw = Raise MisconfiguredMaxLength).
Proof.
  split; [apply longest_bound|].
  unfold TimeZoneField_init, validate_timezone_max_length.
  split; intros H.
  - apply Nat.leb_le in H. by rewrite H.
  - apply Nat.leb_gt in H. by rewrite H.
Qed.

Lemma to_python_coerces (v : value) :
  v ≠ VNone →
  TimeZoneField_to_python v = coerce_timezone_value (VStr (smart_unicode v)).
Proof. intros Hv. by destruct v. Qed.

(** C9.  With every identifier of the allow-list known to pytz under its
    own name: [to_python] of the zone field returns [None] for [None]; for
    any other value whose text names a zone of the allow-list it returns
    that zone, which is stored as exactly that text; and for any other
    value whose text is not in the allow-list it fails with
    [InvalidTimeZone]. *)
Theorem C9_to_python_validates :
  (∀ s, s ∈ ALL_TIMEZONE_CHOICES →
        ∃ z, pytz_timezone s = Some z ∧ zone z = s) →
  TimeZoneField_to_python VNone = Ok VNone
  ∧ (∀ v, v ≠ VNone → smart_unicode v ∈ ALL_TIMEZONE_CHOICES →
       ∃ z, TimeZoneField_to_python v = Ok (VTz z)
            ∧ zone z = smart_unicode v
            ∧ TimeZoneField_get_prep_value (VTz z) = VStr (smart_unicode v))
  ∧ (∀ v, v ≠ VNone → smart_unicode v ∉ ALL_TIMEZONE_CHOICES →
       TimeZoneField_to_python v = Raise InvalidTimeZone).
Proof.
  intros Hknown. split; [reflexivity|]. split.
  - intros v Hv Hin. destruct (Hknown _ Hin) as (z & Hz & Hname).
    exists z. rewrite to_python_coerces by done.
    unfold coerce_timezone_value. simpl.
    rewrite bool_decide_eq_true_2 by done. rewrite Hz.
    split; [done|]. split; [done|]. simpl. by rewrite Hname.
  - intros v Hv Hout. rewrite to_python_coerces by done.
    unfold coerce_timezone_value. simpl.
    by rewrite bool_decide_eq_false_2.
Qed.

(** *** What [get_for_save] returns *)

Lemma get_for_save_canonical field (h : heap) l o canonical :
  h !! l = Some o →
  odict o !! get_attname field = Some canonical →
  get_for_save field l h
  = match canonical with
    | VNone => Ok (VNone, h)
    | _ => match localize_if_naive db_tz canonical with
           | Ok dt => Ok (VDatetime dt, h)
           | Raise e => Raise e
           end
    end.
Proof.
  intros Hl Ha. unfold get_for_save, bind at 1, dict_of. rewrite Hl, Ha.
  by destruct canonical as [| | |[w [t|]]| | | |].
Qed.

(** C4, as the code has it.  With the storage slot present,
    [get_for_save] leaves the store alone and returns [None] for [None], a
    naive date-time localized as UTC, and an aware date-time as it is,
    without converting it: the result carries the UTC zone when the stored
    value was naive or already carried it.  With the storage slot absent,
    whatever it returns is [None] or carries the UTC zone. *)
Theorem C4_get_for_save_normalizes field (h : heap) l o :
  h !! l = Some o →
  (odict o !! get_attname field = Some VNone →
     get_for_save field l h = Ok (VNone, h))
  ∧ (∀ w, odict o !! get_attname field = Some (VDatetime (naive w)) →
       get_for_save field l h
       = Ok (VDatetime {| wall := w; dt_tzinfo := Some utc |}, h))
  ∧ (∀ w t,
       odict o !! get_attname field
       = Some (VDatetime {| wall := w; dt_tzinfo := Some t |}) →
       get_for_save field l h
       = Ok (VDatetime {| wall := w; dt_tzinfo := Some t |}, h))
  ∧ (∀ v h', odict o !! get_attname field = None →
       get_for_save field l h = Ok (v, h') →
       v = VNone ∨ ∃ u, v = VDatetime {| wall := u; dt_tzinfo := Some utc |}).
Proof.
  intros Hl.
  split; [intros Ha; by rewrite (get_for_save_canonical _ _ _ _ _ Hl Ha)|].
  split; [intros w Ha; by rewrite (get_for_save_canonical _ _ _ _ _ Hl Ha)|].
  split; [intros w t Ha;
          by rewrite (get_for_save_canonical _ _ _ _ _ Hl Ha)|].
  intros v h' Ha H. unfold get_for_save, bind at 1, dict_of in H.
  rewrite Hl, Ha in H. unfold bind at 1 in H.
  destruct (dict_get l (name field) h) as [[raw h0]|]; [|done].
  unfold bind at 1 in H.
  destruct (lift (DateTimeField_to_python raw) h0) as [[x h1]|]; [|done].
  destruct x; try discriminate H.
  - inversion H. by left.
  - right. unfold bind at 1 in H.
    destruct (match dt_tzinfo d with
              | Some _ => ret d
              | None => let* tz := instance_timezone field l in
                        lift (call_localize tz d)
              end h1) as [[dt h2]|]; [|done].
    unfold bind, lift, astimezone in H.
    destruct (dt_tzinfo dt) as [t|]; [|done].
    inversion H. exists (utc_reading (wall dt) t). unfold fromutc. simpl.
    by rewrite Z.add_0_r.
Qed.

(** *** Resolution along a lookup path *)

Lemma get_timezone_along_path (h : heap) l o path cache_name l' parts :
  h !! l = Some o →
  odict o !! cache_name = None →
  has_dunder path = true →
  walk_cached (VRef l) (split_dunder path) h = Ok ((VRef l', parts), h) →
  get_timezone l (VStr path) cache_name h
  = (let* tz :=
       (if 1 <? length parts
        then values_list_first (VRef l') (join_dunder parts)
        else getattr (VRef l') (hd "" parts)) in
     let* tz := coerce_zone_name
                  (match tz with VNone => VTz default_tz | _ => tz end) in
     let* _ := dict_set l' cache_name tz in
     ret tz) h.
Proof.
  intros Hl Hc Hd Hw.
  unfold get_timezone, bind at 1, dict_of. rewrite Hl, Hc.
  unfold bind at 1, lookup_timezone. simpl. rewrite Hd. simpl.
  unfold bind at 1. rewrite Hw. unfold bind at 1, bind at 3.
  by destruct ((if 1 <? length parts
                then values_list_first (VRef l') (join_dunder parts)
                else getattr (VRef l') (hd "" parts)) h) as [[tz h1]|].
Qed.


(** *** Saving twice *)

(** [get_for_save] changes the store in one way only: through the
    resolver, which memoizes a zone in the cache slot of one record. *)
Lemma get_for_save_store field (h : heap) l o v h' :
  h !! l = Some o →
  get_for_save field l h = Ok (v, h') →
  h' = h ∨ ∃ l' o' z, h !! l' = Some o'
                      ∧ h' = store_set h l' o' (get_cache_name field) (VTz z).
Proof.
  intros Hl H.
  destruct (odict o !! get_attname field) as [canonical|] eqn:Ha.
  { rewrite (get_for_save_canonical _ _ _ _ _ Hl Ha) in H.
    left. destruct canonical; repeat case_in H; by inversion H. }
  unfold get_for_save, bind at 1, dict_of in H. rewrite Hl, Ha in H.
  unfold bind at 1, dict_get, bind at 1, dict_of in H. rewrite Hl in H.
  destruct (odict o !! name field) as [raw|]; [|done].
  unfold ret, bind at 1, lift in H.
  destruct (DateTimeField_to_python raw) as [x|]; [|done].
  destruct x; try discriminate H.
  { inversion H. by left. }
  unfold bind at 1 in H. destruct (dt_tzinfo d).
  { unfold ret, bind, lift in H. run_inv. by left. }
  unfold bind at 1 in H.
  destruct (instance_timezone field l h) as [[tz h1]|] eqn:Htz; [|done].
  unfold bind, lift, ret in H. destruct tz; try discriminate H.
  simpl in H. run_inv.
  destruct (instance_timezone_store _ _ _ _ _ _ Hl Htz)
    as [-> | (l' & o' & Hl' & ->)]; [by left|].
  right. by exists l', o', z.
Qed.

(** With a fixed zone source the store is not touched at all, so saving
    twice gives the same value twice. *)
Lemma get_for_save_twice_fixed_zone field (h : heap) l o v h' :
  h !! l = Some o →
  (timezone field = VNone ∨ ∃ z, timezone field = VTz z) →
  get_for_save field l h = Ok (v, h') →
  h' = h ∧ get_for_save field l h' = Ok (v, h').
Proof.
  intros Hl Hfixed H.
  assert (h' = h) as ->; [|done].
  destruct (odict o !! get_attname field) as [canonical|] eqn:Ha.
  { rewrite (get_for_save_canonical _ _ _ _ _ Hl Ha) in H.
    destruct canonical; repeat case_in H; by inversion H. }
  unfold get_for_save, bind at 1, dict_of in H. rewrite Hl, Ha in H.
  unfold bind at 1, dict_get, bind at 1, dict_of in H. rewrite Hl in H.
  destruct (odict o !! name field) as [raw|]; [|done].
  unfold ret, bind at 1, lift in H.
  destruct (DateTimeField_to_python raw) as [x|]; [|done].
  destruct x; try discriminate H.
  { by inversion H. }
  unfold bind at 1 in H. destruct (dt_tzinfo d).
  { unfold ret, bind, lift in H. by run_inv. }
  unfold bind at 1 in H.
  destruct (instance_timezone field l h) as [[tz h1]|] eqn:Htz; [|done].
  assert (h1 = h) as ->.
  { unfold instance_timezone in Htz.
    destruct Hfixed as [E | [z E]]; rewrite E in Htz;
      unfold bind, dict_of, ret in Htz; rewrite Hl in Htz; by inversion Htz. }
  unfold bind, lift, ret in H. by run_inv.
Qed.

Lemma timezone_name_cache_name field :
  get_cache_name field ≠ get_timezone_name field.
Proof.
  unfold get_timezone_name, get_cache_name. intros E.
  apply (f_equal String.length) in E.
  rewrite !length_append in E. simpl in E. lia.
Qed.

(** Once a zone is memoized in the cache slot of the record itself, the
    resolver answers it again and leaves the store alone. *)
Lemma instance_timezone_memoized field (h : heap) l o tz h1 z :
  h !! l = Some o →
  instance_timezone field l h = Ok (tz, h1) →
  tz = VTz z →
  let h2 := store_set h l o (get_cache_name field) tz in
  instance_timezone field l h2 = Ok (tz, h2).
Proof.
  intros Hl Htz -> h2.
  assert (Hl2 : h2 !! l
                = Some (with_dict o (<[get_cache_name field := VTz z]> (odict o))))
    by apply lookup_insert_eq.
  assert (Hplain : ∀ t,
    (let* d := dict_of (VRef l) in
     ret (default (VTz t) (d !! get_timezone_name field))) h
    = Ok (VTz z, h1) →
    (let* d := dict_of (VRef l) in
     ret (default (VTz t) (d !! get_timezone_name field))) h2
    = Ok (VTz z, h2)).
  { intros t. unfold bind, dict_of, ret. rewrite Hl, Hl2. simpl.
    rewrite lookup_insert_ne by apply timezone_name_cache_name.
    intros Hx. by inversion Hx. }
  assert (Hprop : ∀ src,
    get_timezone l src (get_cache_name field) h2 = Ok (VTz z, h2)).
  { intros src. unfold get_timezone, bind, dict_of. rewrite Hl2. simpl.
    by rewrite lookup_insert_eq. }
  unfold instance_timezone in *.
  destruct (timezone field); try apply Hprop; by apply Hplain.
Qed.

(** Saving twice gives the same value twice whenever the resolver memoizes
    its answer on the record it was asked for, or not at all. *)
Lemma get_for_save_twice field (h : heap) l o v h' :
  h !! l = Some o →
  (∀ tz h1, instance_timezone field l h = Ok (tz, h1) →
            h1 = h ∨ h1 = store_set h l o (get_cache_name field) tz) →
  get_for_save field l h = Ok (v, h') →
  get_for_save field l h' = Ok (v, h').
Proof.
  intros Hl Hmemo H. pose proof H as H0.
  destruct (odict o !! get_attname field) as [canonical|] eqn:Ha.
  { rewrite (get_for_save_canonical _ _ _ _ _ Hl Ha) in H.
    assert (h' = h) as ->; [|done].
    destruct canonical; repeat case_in H; by inversion H. }
  unfold get_for_save, bind at 1, dict_of in H. rewrite Hl, Ha in H.
  unfold bind at 1, dict_get, bind at 1, dict_of in H. rewrite Hl in H.
  destruct (odict o !! name field) as [raw|] eqn:Hn; [|done].
  unfold ret, bind at 1, lift in H.
  destruct (DateTimeField_to_python raw) as [x|] eqn:Hpy; [|done].
  destruct x; try discriminate H.
  { inversion H; by subst. }
  unfold bind at 1 in H. destruct (dt_tzinfo d) eqn:Hd.
  { assert (h' = h) as ->; [|done].
    unfold ret, bind, lift in H. by run_inv. }
  unfold bind at 1 in H.
  destruct (instance_timezone field l h) as [[tz h1]|] eqn:Htz; [|done].
  unfold bind at 1, lift in H.
  destruct (call_localize tz d) as [local|] eqn:Hloc; [|done].
  unfold bind, lift, ret in H.
  destruct (astimezone local db_tz) as [saved|] eqn:Hsaved; [|done].
  inversion H; subst v h'. clear H.
  destruct tz; try discriminate Hloc.
  destruct (Hmemo _ _ eq_refl) as [-> | ->]; [done|].
  pose proof (instance_timezone_memoized field h l o (VTz z) _ z Hl Htz
                eq_refl) as Hagain.
  cbv zeta in Hagain.
  set (h2 := store_set h l o (get_cache_name field) (VTz z)) in *.
  assert (Hl2 : h2 !! l
                = Some (with_dict o (<[get_cache_name field := VTz z]> (odict o))))
    by apply lookup_insert_eq.
  unfold get_for_save, bind at 1, dict_of. rewrite Hl2. simpl.
  rewrite lookup_insert_ne by (apply not_eq_sym, attname_cache_name).
  rewrite Ha.
  unfold bind at 1, dict_get, bind at 1, dict_of. rewrite Hl2. simpl.
  rewrite lookup_insert_ne by (apply not_eq_sym, name_cache_name).
  rewrite Hn. unfold ret, bind at 1, lift. rewrite Hpy.
  unfold bind at 1. rewrite Hd. unfold bind at 1. rewrite Hagain.
  unfold bind at 1, lift. rewrite Hloc.
  unfold bind, lift, ret. by rewrite Hsaved.
Qed.

(** When the resolver stays on the record, the only change it makes to the
    store is to fill the empty cache slot of that record with the zone it
    returns. *)
Lemma lookup_timezone_on_record field l (h : heap) o inst z h' :
  h !! l = Some o →
  resolves_on_record field (odict o) = true →
  odict o !! get_cache_name field = None →
  lookup_timezone l (timezone field) h = Ok ((inst, z), h') →
  inst = VRef l ∧ h' = h.
Proof.
  intros Hl Hon Hc H.
  destruct (lookup_timezone_store _ _ _ _ _ _ _ Hl H) as (-> & _).
  split; [|done]. unfold lookup_timezone in H.
  destruct (callable (timezone field)) eqn:Hcall.
  { unfold bind, ret in H. run_inv. done. }
  unfold resolves_on_record in Hon.
  destruct (timezone field) as [|path| | | | | |]; try discriminate H.
  destruct (has_dunder path); simpl in H; unfold bind, ret in H.
  - rewrite Hc in Hon.
    destruct (split_dunder path) as [|first rest]; [discriminate H|].
    simpl in H. unfold bind, dict_of in H. rewrite Hl in H.
    destruct (odict o !! ("_" +:+ first +:+ "_cache")); [discriminate Hon|].
    unfold ret in H. run_inv; done.
  - run_inv; done.
Qed.

Lemma instance_timezone_on_record field l (h : heap) o tz h' :
  h !! l = Some o →
  resolves_on_record field (odict o) = true →
  instance_timezone field l h = Ok (tz, h') →
  h' = h
  ∨ (odict o !! get_cache_name field = None
     ∧ h' = store_set h l o (get_cache_name field) tz).
Proof.
  intros Hl Hon H. unfold instance_timezone in H.
  assert (Hplain : ∀ t,
    (let* d := dict_of (VRef l) in
     ret (default (VTz t) (d !! get_timezone_name field))) h = Ok (tz, h') →
    h' = h).
  { intros t. unfold bind, dict_of, ret. rewrite Hl. intros Hx.
    by inversion Hx. }
  assert (Hprop :
    get_timezone l (timezone field) (get_cache_name field) h = Ok (tz, h') →
    h' = h
    ∨ (odict o !! get_cache_name field = None
       ∧ h' = store_set h l o (get_cache_name field) tz)).
  { clear H Hplain. intros H.
    unfold get_timezone, bind at 1, dict_of in H. rewrite Hl in H.
    destruct (odict o !! get_cache_name field) as [cached|] eqn:Hc.
    { inversion H. by left. }
    unfold bind at 1 in H.
    destruct (lookup_timezone l (timezone field) h)
      as [[[inst z0] h1]|] eqn:Hlk; [|done].
    destruct (lookup_timezone_on_record _ _ _ _ _ _ _ Hl Hon Hc Hlk)
      as (-> & ->).
    unfold bind at 1 in H.
    destruct (coerce_zone_name z0 h) as [[x h2]|] eqn:Hx; [|done].
    apply coerce_zone_name_store in Hx as ->.
    unfold bind, dict_set_of, dict_set in H. rewrite Hl in H.
    inversion H; subst. by right. }
  destruct (timezone field) eqn:Htz; try (by apply Hprop);
    left; by eapply Hplain.
Qed.

(** What the resolver answers from a filled cache slot. *)
Lemma instance_timezone_cached field l (h : heap) o cached :
  h !! l = Some o →
  zone_is_property field = true →
  odict o !! get_cache_name field = Some cached →
  instance_timezone field l h = Ok (zone_of_cached cached, h).
Proof.
  intros Hl Hprop Hc. unfold instance_timezone, zone_is_property in *.
  destruct (timezone field); try discriminate Hprop;
    unfold get_timezone, bind, dict_of; by rewrite Hl, Hc.
Qed.

(** C7, as the code has it.  On a record where the resolver stays on the
    record, if [get_for_save] returns a value then a second call, with no
    assignment in between, returns the same value and leaves the store as
    the first call left it; the first call leaves the raw slot and the
    storage slot alone, and changes the cache slot only when it is empty,
    by the zone that the resolver memoizes there.  The cache slot is
    consulted through the resolver: for a naive raw value and a zone
    computed by the resolver, the zone found in the cache slot (that of a
    cached date-time, or a cached zone) is the one the value is localized
    in. *)
Theorem C7_save_twice field (h : heap) l o v h' :
  h !! l = Some o →
  resolves_on_record field (odict o) = true →
  get_for_save field l h = Ok (v, h') →
  get_for_save field l h' = Ok (v, h')
  ∧ (∃ o', h' !! l = Some o'
           ∧ odict o' !! name field = odict o !! name field
           ∧ odict o' !! get_attname field = odict o !! get_attname field
           ∧ (odict o' !! get_cache_name field
              = odict o !! get_cache_name field
              ∨ (odict o !! get_cache_name field = None
                 ∧ ∃ z, odict o' !! get_cache_name field = Some (VTz z))))
  ∧ (∀ cached z w,
       zone_is_property field = true →
       odict o !! get_cache_name field = Some cached →
       zone_of_cached cached = VTz z →
       odict o !! get_attname field = None →
       odict o !! name field = Some (VDatetime (naive w)) →
       v = VDatetime {| wall := (w - offset_at_wall z w)%Z;
                        dt_tzinfo := Some utc |}).
Proof.
  intros Hl Hon H.
  assert (Hmemo : ∀ tz h1, instance_timezone field l h = Ok (tz, h1) →
            h1 = h ∨ h1 = store_set h l o (get_cache_name field) tz).
  { intros tz h1 Htz.
    destruct (instance_timezone_on_record _ _ _ _ _ _ Hl Hon Htz)
      as [-> | [_ ->]]; [by left | by right]. }
  split; [by eapply get_for_save_twice|]. split.
  - (* the slots of the record *)
    destruct (odict o !! get_attname field) as [canonical|] eqn:Ha.
    { rewrite (get_for_save_canonical _ _ _ _ _ Hl Ha) in H.
      assert (h' = h) as ->.
      { destruct canonical; repeat case_in H; by inversion H. }
      exists o. rewrite Ha. eauto. }
    pose proof H as H0.
    unfold get_for_save, bind at 1, dict_of in H. rewrite Hl, Ha in H.
    unfold bind at 1, dict_get, bind at 1, dict_of in H. rewrite Hl in H.
    destruct (odict o !! name field) as [raw|] eqn:Hn; [|done].
    unfold ret, bind at 1, lift in H.
    destruct (DateTimeField_to_python raw) as [x|] eqn:Hpy; [|done].
    destruct x; try discriminate H.
    { inversion H; subst. exists o. rewrite Ha, Hn. eauto. }
    unfold bind at 1 in H. destruct (dt_tzinfo d) eqn:Hd.
    { assert (h' = h) as ->.
      { unfold ret, bind, lift in H. by run_inv. }
      exists o. rewrite Ha, Hn. eauto. }
    unfold bind at 1 in H.
    destruct (instance_timezone field l h) as [[tz h1]|] eqn:Htz; [|done].
    unfold bind at 1, lift in H.
    destruct (call_localize tz d) as [local|] eqn:Hloc; [|done].
    unfold bind, lift, ret in H.
    destruct (astimezone local db_tz) as [saved|]; [|done].
    inversion H; subst v h'. clear H.
    destruct tz; try discriminate Hloc.
    destruct (instance_timezone_on_record _ _ _ _ _ _ Hl Hon Htz)
      as [-> | [Hc ->]].
    { exists o. rewrite Ha, Hn. eauto. }
    eexists. split; [apply lookup_insert_eq|]. simpl.
    rewrite lookup_insert_ne by (apply not_eq_sym, name_cache_name).
    rewrite lookup_insert_ne by (apply not_eq_sym, attname_cache_name).
    rewrite lookup_insert_eq. rewrite Ha, Hn.
    split; [done|]. split; [done|]. right. eauto.
  - (* the cache slot, consulted through the resolver *)
    intros cached z w Hprop Hc Hz Ha Hn.
    pose proof (instance_timezone_cached field l h o cached Hl Hprop Hc)
      as Htz. rewrite Hz in Htz.
    unfold get_for_save, bind at 1, dict_of in H. rewrite Hl, Ha in H.
    unfold bind at 1, dict_get, bind at 1, dict_of in H.
    rewrite Hl, Hn in H. unfold ret, bind at 1, lift in H. simpl in H.
    unfold bind at 1, bind at 1 in H. rewrite Htz in H. simpl in H.
    unfold bind, lift, astimezone, fromutc, utc_reading in H. simpl in H.
    inversion H. by rewrite Z.add_0_r.
Qed.

(** ** Further properties *)

(** *** Assignments *)

Lemma with_dict_with_dict o d d' : with_dict (with_dict o d) d' = with_dict o d'.
Proof. reflexivity. Qed.

(** X1.  Only the last assignment counts: assigning [v1] and then [v2]
    leaves the store exactly as assigning [v2] alone. *)
Theorem set_overwrites field (h : heap) l o v1 v2 :
  h !! l = Some o →
  (let* _ := __set__ field l v1 in __set__ field l v2) h
  = __set__ field l v2 h.
Proof.
  intros Hl. unfold bind. rewrite (set_store field h l o v1 Hl).
  rewrite (set_store field _ l _ v2 (lookup_insert_eq _ _ _)).
  rewrite (set_store field h l o v2 Hl).
  rewrite insert_insert_eq, with_dict_with_dict. simpl.
  do 3 f_equal. f_equal. apply dict_after_set_forgets.
  intros k H1 H2 H3. by apply dict_after_set_other.
Qed.

(** X2.  An assignment touches the three slots of its field on its record
    and nothing else: the other records, the class attributes and the
    database answers of the record, and every other key of its dictionary
    (the zone attribute, the caches of related records, the slots of
    other fields) stay as they were. *)
Theorem set_frame field (h : heap) l o v h' :
  h !! l = Some o →
  __set__ field l v h = Ok (tt, h') →
  (∀ l', l' ≠ l → h' !! l' = h !! l')
  ∧ ∃ o', h' !! l = Some o'
          ∧ oclass o' = oclass o ∧ oquery o' = oquery o
          ∧ odict o' !! get_timezone_name field
            = odict o !! get_timezone_name field
          ∧ ∀ k, k ≠ name field → k ≠ get_cache_name field →
                 k ≠ get_attname field → odict o' !! k = odict o !! k.
Proof.
  intros Hl H. rewrite (set_store field h l o v Hl) in H.
  inversion H; subst h'. clear H. split.
  - intros l' Hne. by rewrite lookup_insert_ne.
  - eexists. split; [apply lookup_insert_eq|]. simpl.
    split; [done|]. split; [done|].
    assert (Hother : ∀ k, k ≠ name field → k ≠ get_cache_name field →
              k ≠ get_attname field →
              dict_after_set field v (odict o) !! k = odict o !! k)
      by (intros k; apply dict_after_set_other).
    split; [|exact Hother]. apply Hother.
    + unfold get_timezone_name. intros E.
      apply (f_equal String.length) in E.
      rewrite length_append in E. simpl in E. lia.
    + apply not_eq_sym, timezone_name_cache_name.
    + unfold get_timezone_name, get_attname. intros E.
      apply (f_equal String.length) in E.
      rewrite !length_append in E. simpl in E. lia.
Qed.

(** *** Reading *)

(** The resolver leaves the dictionary of the record it was asked for as
    it was, but for the cache slot. *)
Lemma instance_timezone_dict field l (h : heap) o tz h0 :
  h !! l = Some o →
  instance_timezone field l h = Ok (tz, h0) →
  ∃ o0, h0 !! l = Some o0
        ∧ ∀ k, k ≠ get_cache_name field → odict o0 !! k = odict o !! k.
Proof.
  intros Hl H.
  destruct (instance_timezone_store _ _ _ _ _ _ Hl H)
    as [-> | (l' & o' & Hl' & ->)]; [by exists o|].
  unfold store_set. destruct (decide (l' = l)) as [->|Hne].
  - rewrite lookup_insert_eq. eexists. split; [done|]. intros k Hk. simpl.
    rewrite lookup_insert_ne by done. congruence.
  - rewrite lookup_insert_ne by done. by exists o.
Qed.

Lemma bind_inv {A B} (m : M A) (k : A → M B) (h : heap) r :
  bind m k h = Ok r → ∃ a h1, m h = Ok (a, h1) ∧ k a h1 = Ok r.
Proof.
  unfold bind. destruct (m h) as [[a h1]|]; [|done]. intros H.
  by exists a, h1.
Qed.

Lemma get_storage field (h : heap) l o v :
  h !! l = Some o →
  (∀ c, odict o !! get_cache_name field ≠ Some (VDatetime c)) →
  odict o !! get_attname field = Some v →
  __get__ field l h = get_from_storage field l v h.
Proof.
  intros Hl Hc Ha. unfold __get__, bind at 1, dict_of. rewrite Hl, Ha.
  destruct (odict o !! get_cache_name field) as [[]|] eqn:E;
    try reflexivity.
  by destruct (Hc d).
Qed.

Lemma get_no_raw field (h : heap) l o :
  h !! l = Some o →
  (∀ c, odict o !! get_cache_name field ≠ Some (VDatetime c)) →
  odict o !! get_attname field = None →
  odict o !! name field = None →
  __get__ field l h = Raise KeyError.
Proof.
  intros Hl Hc Ha Hn. unfold __get__, bind at 1, dict_of. rewrite Hl, Ha.
  assert (Hraise : ∀ k : value → M value,
            (let* v := dict_get l (name field) in k v) h = Raise KeyError).
  { intros k. unfold bind at 1, dict_get, bind at 1, dict_of.
    by rewrite Hl, Hn. }
  destruct (odict o !! get_cache_name field) as [[]|] eqn:E;
    try apply Hraise.
  by destruct (Hc d).
Qed.

Lemma cache_write_inv field l (h1 : heap) v d h' :
  (let* _ := dict_set l (get_cache_name field) v in ret v) h1
  = Ok (VDatetime d, h') →
  ∃ o', h' !! l = Some o'
        ∧ odict o' !! get_cache_name field = Some (VDatetime d).
Proof.
  intros Hw. unfold bind, dict_set, ret in Hw.
  destruct (h1 !! l) as [o1|]; [|done]. inversion Hw; subst.
  eexists. split; [apply lookup_insert_eq|]. simpl.
  apply lookup_insert_eq.
Qed.

(** A date-time that [__get__] returns is in the cache slot afterwards. *)
Lemma get_caches_datetime field (h : heap) l o d h' :
  h !! l = Some o →
  __get__ field l h = Ok (VDatetime d, h') →
  ∃ o', h' !! l = Some o'
        ∧ odict o' !! get_cache_name field = Some (VDatetime d).
Proof.
  intros Hl H.
  destruct (odict o !! get_cache_name field) as [cached|] eqn:Hc.
  2: assert (Hmiss : ∀ c, odict o !! get_cache_name field
                          ≠ Some (VDatetime c))
       by (intros c E; rewrite Hc in E; discriminate E).
  1: destruct (is_datetime cached) eqn:Hd;
     [ destruct cached; try discriminate Hd;
       rewrite (get_fast_path field h l o _ Hl Hc) in H;
       inversion H; subst; by exists o
     | assert (Hmiss : ∀ c, odict o !! get_cache_name field
                            ≠ Some (VDatetime c))
         by (intros c E; rewrite Hc in E; inversion E; subst;
             discriminate Hd) ].
  all: destruct (odict o !! get_attname field) as [v|] eqn:Ha.
  all: try (rewrite (get_storage field h l o v Hl Hmiss Ha) in H;
            unfold get_from_storage in H;
            apply bind_inv in H as (v' & h1 & _ & H);
            by eapply cache_write_inv).
  all: destruct (odict o !! name field) as [raw|] eqn:Hn;
    [ rewrite (get_raw_only field h l o raw Hl Hmiss Ha Hn) in H
    | by rewrite (get_no_raw field h l o Hl Hmiss Ha Hn) in H ].
  all: destruct raw; try (inversion H; done).
  all: unfold get_from_raw in H;
    apply bind_inv in H as (tz & h1 & _ & H);
    apply bind_inv in H as (dt & h2 & _ & H);
    by eapply (cache_write_inv field l h2 (VDatetime dt)).
Qed.

(** X3.  Reading twice: once [__get__] has returned a date-time, the next
    read returns the same date-time from the cache slot and leaves the
    store alone, whatever the zone source would answer by then. *)
Theorem get_twice field (h : heap) l o d h' :
  h !! l = Some o →
  __get__ field l h = Ok (VDatetime d, h') →
  __get__ field l h' = Ok (VDatetime d, h').
Proof.
  intros Hl H.
  destruct (get_caches_datetime field h l o d h' Hl H) as (o' & Hl' & Hc).
  by eapply get_fast_path.
Qed.

(** *** Reading and saving *)

Lemma get_for_save_raw_aware field (h : heap) l o w t :
  h !! l = Some o →
  odict o !! get_attname field = None →
  odict o !! name field = Some (VDatetime {| wall := w; dt_tzinfo := Some t |}) →
  get_for_save field l h
  = Ok (VDatetime {| wall := utc_reading w t; dt_tzinfo := Some utc |}, h).
Proof.
  intros Hl Ha Hn. unfold get_for_save, bind at 1, dict_of. rewrite Hl, Ha.
  unfold bind at 1, dict_get, bind at 1, dict_of. rewrite Hl, Hn.
  unfold ret, bind, lift, astimezone, fromutc, utc_reading. simpl.
  by rewrite Z.add_0_r.
Qed.

Lemma get_for_save_raw_naive field (h : heap) l o w z h2 :
  h !! l = Some o →
  odict o !! get_attname field = None →
  odict o !! name field = Some (VDatetime (naive w)) →
  instance_timezone field l h = Ok (VTz z, h2) →
  get_for_save field l h
  = Ok (VDatetime {| wall := (w - offset_at_wall z w)%Z;
                     dt_tzinfo := Some utc |}, h2).
Proof.
  intros Hl Ha Hn Htz.
  unfold get_for_save, bind at 1, dict_of. rewrite Hl, Ha.
  unfold bind at 1, dict_get, bind at 1, dict_of. rewrite Hl, Hn.
  unfold ret, bind at 1, lift. simpl.
  unfold bind at 1, bind at 1. rewrite Htz. simpl.
  unfold bind, lift, astimezone, fromutc, utc_reading. simpl.
  by rewrite Z.add_0_r.
Qed.

Lemma lift_inv {A} (r : res A) (h : heap) a h' :
  lift r h = Ok (a, h') → r = Ok a ∧ h' = h.
Proof. unfold lift. destruct r; intros H; by inversion H. Qed.

(** X4.  What is read is what is saved.  On a record whose raw slot holds
    a date-time (no storage slot, no cached date-time), once [__get__] has
    returned a date-time, [get_for_save] returns the UTC reading of that
    very date-time, carries the UTC zone, and leaves the store alone. *)
Theorem get_then_save_agree field (h : heap) l o dt d h1 :
  h !! l = Some o →
  (∀ c, odict o !! get_cache_name field ≠ Some (VDatetime c)) →
  odict o !! get_attname field = None →
  odict o !! name field = Some (VDatetime dt) →
  __get__ field l h = Ok (VDatetime d, h1) →
  ∃ t, dt_tzinfo d = Some t
       ∧ get_for_save field l h1
         = Ok (VDatetime {| wall := utc_reading (wall d) t;
                            dt_tzinfo := Some utc |}, h1).
Proof.
  intros Hl Hmiss Ha Hn H.
  rewrite (get_raw_only field h l o _ Hl Hmiss Ha Hn) in H.
  unfold get_from_raw in H.
  apply bind_inv in H as (tz & h0 & Htz & H).
  apply bind_inv in H as (d' & h0' & Hput & H).
  apply lift_inv in Hput as (Hput & ->).
  destruct (instance_timezone_dict field l h o tz h0 Hl Htz)
    as (o0 & Hl0 & Hsame).
  unfold bind, dict_set, ret in H. rewrite Hl0 in H.
  inversion H; subst d' h1. clear H.
  set (c := get_cache_name field) in *.
  set (h1 := <[l := with_dict o0 (<[c := VDatetime d]> (odict o0))]> h0).
  assert (Hl1 : h1 !! l = Some (with_dict o0 (<[c := VDatetime d]> (odict o0))))
    by apply lookup_insert_eq.
  assert (Ha1 : odict (with_dict o0 (<[c := VDatetime d]> (odict o0)))
                  !! get_attname field = None).
  { simpl. rewrite lookup_insert_ne by (apply not_eq_sym, attname_cache_name).
    rewrite Hsame by apply attname_cache_name. done. }
  assert (Hn1 : odict (with_dict o0 (<[c := VDatetime d]> (odict o0)))
                  !! name field = Some (VDatetime dt)).
  { simpl. rewrite lookup_insert_ne by (apply not_eq_sym, name_cache_name).
    rewrite Hsame by apply name_cache_name. done. }
  destruct tz; try (destruct (dt_tzinfo dt); discriminate Hput).
  destruct dt as [w [t0|]]; simpl in Hput.
  - (* aware: converted by both *)
    unfold astimezone in Hput. simpl in Hput. inversion Hput; subst d.
    eexists. split; [reflexivity|].
    rewrite (get_for_save_raw_aware field h1 l _ w t0 Hl1 Ha1 Hn1).
    do 4 f_equal. unfold utc_reading. simpl. lia.
  - (* naive: localized by both, in the zone the cache now answers *)
    unfold localize in Hput. simpl in Hput. inversion Hput; subst d.
    eexists. split; [reflexivity|].
    assert (∃ z', instance_timezone field l h1 = Ok (VTz z', h1)
                  ∧ offset_at_wall z' w = offset_at_wall z w)
      as (z' & Hz' & Hoff).
    { destruct (zone_is_property field) eqn:Hprop.
      - eexists. split.
        + rewrite (instance_timezone_cached field l h1 _ _ Hl1 Hprop
                     (lookup_insert_eq _ _ _)).
          reflexivity.
        + reflexivity.
      - exists z. split; [|done].
        unfold zone_is_property in Hprop. unfold instance_timezone in *.
        assert (Hplain : ∀ t,
          (let* d0 := dict_of (VRef l) in
           ret (default (VTz t) (d0 !! get_timezone_name field))) h
          = Ok (VTz z, h0) →
          (let* d0 := dict_of (VRef l) in
           ret (default (VTz t) (d0 !! get_timezone_name field))) h1
          = Ok (VTz z, h1)).
        { intros t. unfold bind, dict_of, ret. rewrite Hl, Hl1. simpl.
          rewrite lookup_insert_ne by apply timezone_name_cache_name.
          rewrite Hsame by (apply not_eq_sym, timezone_name_cache_name).
          intros Hx. by inversion Hx. }
        destruct (timezone field); try discriminate Hprop; by apply Hplain. }
    rewrite (get_for_save_raw_naive field h1 l _ w z' h1 Hl1 Ha1 Hn1 Hz').
    do 4 f_equal. unfold utc_reading. simpl. lia.
Qed.

Lemma get_from_storage_datetime field (h : heap) l o stored z h1 :
  h !! l = Some o →
  (stored = {| wall := wall stored; dt_tzinfo := Some utc |}
   ∨ stored = naive (wall stored)) →
  instance_timezone field l h = Ok (VTz z, h1) →
  returned (get_from_storage field l (VDatetime stored) h)
  = Ok (VDatetime (fromutc z (wall stored))).
Proof.
  intros Hl Hstored Htz.
  destruct (instance_timezone_alloc _ _ _ _ _ _ Hl Htz) as [o1 Hl1].
  assert (Hutc : localize_if_naive db_tz (VDatetime stored)
                 = Ok {| wall := wall stored; dt_tzinfo := Some utc |}).
  { destruct Hstored as [E | E]; rewrite E; reflexivity. }
  unfold get_from_storage, bind at 1, bind at 1, lift at 1. rewrite Hutc.
  unfold bind at 1. rewrite Htz.
  unfold bind, lift, ret, dict_set, call_astimezone, astimezone. simpl.
  rewrite Hl1. unfold returned, res_map. simpl.
  unfold utc_reading. simpl. by rewrite Z.sub_0_r.
Qed.

(** X5.  The round trip through storage.  A date-time is assigned to a
    record whose zone resolves to [z], and [get_for_save] gives the value
    for the column: the UTC reading of the date-time, taken in [z] if it
    is naive.  When a record in the same zone is loaded with that value in
    its storage slot, with or without the UTC zone attached, [__get__]
    returns the assigned date-time put into [z]: the same instant for an
    aware one, and the same wall-clock reading for a naive one provided
    the zone is, at that instant, at the offset that [localize] chose for
    the reading. *)
Theorem save_reload_get field (h : heap) l o dt z h1 h2
    (hr : heap) lr or stored hr1 :
  h !! l = Some o →
  __set__ field l (VDatetime dt) h = Ok (tt, h1) →
  instance_timezone field l h1 = Ok (VTz z, h2) →
  (dt_tzinfo dt = None →
   offset_at_utc z (utc_instant_in z dt) = offset_at_wall z (wall dt)) →
  hr !! lr = Some or →
  (∀ c, odict or !! get_cache_name field ≠ Some (VDatetime c)) →
  odict or !! get_attname field = Some (VDatetime stored) →
  (stored = {| wall := utc_instant_in z dt; dt_tzinfo := Some utc |}
   ∨ stored = naive (utc_instant_in z dt)) →
  instance_timezone field lr hr = Ok (VTz z, hr1) →
  returned (get_for_save field l h1)
  = Ok (VDatetime {| wall := utc_instant_in z dt; dt_tzinfo := Some utc |})
  ∧ returned (__get__ field lr hr) = Ok (VDatetime (in_zone z dt)).
Proof.
  intros Hl Hset Htz Hcons Hlr Hmiss Ha Hstored Htzr.
  rewrite (set_store field h l o _ Hl) in Hset.
  inversion Hset as [Hh1]. clear Hset. subst h1.
  set (h1 := <[l := with_dict o (dict_after_set field (VDatetime dt)
                                   (odict o))]> h) in *.
  assert (Hl1 : h1 !! l
                = Some (with_dict o (dict_after_set field (VDatetime dt)
                                       (odict o))))
    by apply lookup_insert_eq.
  split.
  - destruct dt as [w [t|]].
    + rewrite (get_for_save_raw_aware field h1 l _ w t Hl1
                 (dict_after_set_attname _ _ _) (dict_after_set_name _ _ _)).
      reflexivity.
    + rewrite (get_for_save_raw_naive field h1 l _ w z h2 Hl1
                 (dict_after_set_attname _ _ _) (dict_after_set_name _ _ _)
                 Htz).
      reflexivity.
  - rewrite (get_storage field hr lr or _ Hlr Hmiss Ha).
    assert (Hwall : wall stored = utc_instant_in z dt)
      by (destruct Hstored as [-> | ->]; reflexivity).
    rewrite (get_from_storage_datetime field hr lr or stored z hr1 Hlr).
    + rewrite Hwall. do 2 f_equal. unfold in_zone, utc_instant_in in *.
      destruct (dt_tzinfo dt) as [t|]; [reflexivity|].
      unfold fromutc. rewrite (Hcons eq_refl). f_equal. lia.
    + rewrite Hwall. exact Hstored.
    + exact Htzr.
Qed.

(** *** The resolver *)




(** X7.  Where the zone is memoized when the lookup path is walked.  If
    the walk over cached related records ends on another record, the zone
    that the resolver returns is written to the cache slot in the
    dictionary of that record; the record that was asked for is left as
    it was, its cache slot still empty, and so is every other record. *)
Theorem resolver_memoizes_on_reached_record
    (h : heap) l o path cache_name l' o' parts z h' :
  h !! l = Some o →
  odict o !! cache_name = None →
  has_dunder path = true →
  walk_cached (VRef l) (split_dunder path) h = Ok ((VRef l', parts), h) →
  h !! l' = Some o' →
  l' ≠ l →
  get_timezone l (VStr path) cache_name h = Ok (z, h') →
  h' !! l = Some o
  ∧ h' !! l' = Some (with_dict o' (<[cache_name := z]> (odict o')))
  ∧ ∀ l'', l'' ≠ l' → h' !! l'' = h !! l''.
Proof.
  intros Hl Hc Hd Hw Hl' Hne H.
  rewrite (get_timezone_along_path h l o path cache_name l' parts Hl Hc Hd Hw)
    in H.
  apply bind_inv in H as (tz & h1 & Hfound & H).
  assert (h1 = h) as ->.
  { destruct (1 <? length parts).
    - by apply values_list_first_store in Hfound.
    - by apply getattr_store in Hfound. }
  apply bind_inv in H as (z1 & h2 & Hco & H).
  apply coerce_zone_name_store in Hco as ->.
  apply bind_inv in H as ([] & h3 & Hset & H).
  inversion H; subst z1 h3. clear H.
  unfold dict_set in Hset. rewrite Hl' in Hset. inversion Hset as [Hh'].
  split; [by rewrite lookup_insert_ne|].
  split; [apply lookup_insert_eq|].
  intros l'' Hl''. by apply lookup_insert_ne.
Qed.

(** X8.  No default zone for a plain attribute.  When the source is an
    attribute name without [__] and the attribute is [None], the resolver
    returns [None] and memoizes it, and saving or reading a naive raw
    date-time then fails with [AttributeError]: [None] has no
    [localize]. *)
Theorem plain_attribute_None_is_not_defaulted field (h : heap) l o attr w :
  h !! l = Some o →
  timezone field = VStr attr →
  has_dunder attr = false →
  odict o !! attr = Some VNone →
  odict o !! get_cache_name field = None →
  odict o !! get_attname field = None →
  odict o !! name field = Some (VDatetime (naive w)) →
  instance_timezone field l h
  = Ok (VNone, store_set h l o (get_cache_name field) VNone)
  ∧ get_for_save field l h = Raise AttributeError
  ∧ __get__ field l h = Raise AttributeError.
Proof.
  intros Hl Hsrc Hd Hattr Hc Ha Hn.
  assert (Htz : instance_timezone field l h
                = Ok (VNone, store_set h l o (get_cache_name field) VNone)).
  { unfold instance_timezone. rewrite Hsrc.
    unfold get_timezone, bind at 1, dict_of. rewrite Hl, Hc.
    unfold bind at 1, lookup_timezone. simpl. rewrite Hd. simpl.
    unfold bind at 1, getattr. rewrite Hl, Hattr. simpl.
    unfold bind, ret, dict_set. by rewrite Hl. }
  split; [exact Htz|]. split.
  - unfold get_for_save, bind at 1, dict_of. rewrite Hl, Ha.
    unfold bind at 1, dict_get, bind at 1, dict_of. rewrite Hl, Hn.
    unfold ret, bind at 1, lift. simpl.
    unfold bind at 1, bind at 1. by rewrite Htz.
  - assert (Hmiss : ∀ c, odict o !! get_cache_name field ≠ Some (VDatetime c))
      by (intros c E; rewrite Hc in E; discriminate E).
    rewrite (get_raw_only field h l o _ Hl Hmiss Ha Hn).
    unfold get_from_raw, bind at 1. by rewrite Htz.
Qed.

(** *** Lookup paths *)

Lemma split_step cur c rest :
  split_dunder_from cur (String c rest)
  = match rest with
    | String c' rest' =>
        if Ascii.eqb c "_" && Ascii.eqb c' "_"
        then cur :: split_dunder_from "" rest'
        else split_dunder_from (cur +:+ String c "") rest
    | EmptyString => split_dunder_from (cur +:+ String c "") rest
    end.
Proof.
  destruct rest as [|c' rest'].
  - destruct c as [[] [] [] [] [] [] [] []]; reflexivity.
  - destruct c as [[] [] [] [] [] [] [] []]; try reflexivity.
    destruct c' as [[] [] [] [] [] [] [] []]; reflexivity.
Qed.

Lemma has_dunder_step c rest :
  has_dunder (String c rest)
  = match rest with
    | String c' rest' =>
        if Ascii.eqb c "_" && Ascii.eqb c' "_" then true else has_dunder rest
    | EmptyString => false
    end.
Proof.
  destruct rest as [|c' rest'].
  - destruct c as [[] [] [] [] [] [] [] []]; reflexivity.
  - destruct c as [[] [] [] [] [] [] [] []]; try reflexivity.
    destruct c' as [[] [] [] [] [] [] [] []]; reflexivity.
Qed.

Lemma append_assoc (a b c : string) : (a +:+ b) +:+ c = a +:+ (b +:+ c).
Proof.
  induction a as [|x a IH]; [reflexivity|].
  change (String x ((a +:+ b) +:+ c) = String x (a +:+ (b +:+ c))).
  by rewrite IH.
Qed.

Lemma append_empty_r (a : string) : a +:+ "" = a.
Proof.
  induction a as [|x a IH]; [reflexivity|].
  change (String x (a +:+ "") = String x a). by rewrite IH.
Qed.

(** Splitting and joining again gives the path back, and a path with [__]
    has more than one part. *)
Lemma split_join_from (n : nat) : ∀ s cur,
  String.length s ≤ n →
  join_dunder (split_dunder_from cur s) = cur +:+ s
  ∧ split_dunder_from cur s ≠ []
  ∧ (has_dunder s = true → 1 < length (split_dunder_from cur s)).
Proof.
  induction n as [|n IH]; intros s cur Hlen.
  { destruct s; simpl in Hlen; [|lia]. simpl.
    rewrite append_empty_r. by repeat split. }
  destruct s as [|c rest].
  { simpl. rewrite append_empty_r. by repeat split. }
  simpl in Hlen. rewrite split_step, has_dunder_step.
  destruct rest as [|c' rest'].
  { destruct (IH "" (cur +:+ String c "") ltac:(simpl; lia))
      as (Hj & Hne & _).
    rewrite Hj, append_assoc. by repeat split. }
  simpl in Hlen.
  destruct (Ascii.eqb c "_" && Ascii.eqb c' "_") eqn:Hsep.
  - apply andb_true_iff in Hsep as [Hc Hc'].
    apply Ascii.eqb_eq in Hc as ->. apply Ascii.eqb_eq in Hc' as ->.
    destruct (IH rest' "" ltac:(lia)) as (Hj & Hne & _).
    destruct (split_dunder_from "" rest') as [|p ps] eqn:Hsp; [done|].
    split; [|split; [done | simpl; lia]].
    change (join_dunder (cur :: p :: ps))
      with (cur +:+ "__" +:+ join_dunder (p :: ps)).
    rewrite Hj. reflexivity.
  - destruct (IH (String c' rest') (cur +:+ String c "")
                ltac:(simpl; lia)) as (Hj & Hne & Hlong).
    rewrite Hj, append_assoc. by repeat split.
Qed.

Lemma join_split (s : string) : join_dunder (split_dunder s) = s.
Proof. by destruct (split_join_from (String.length s) s "" (le_n _)). Qed.

Lemma split_long (s : string) :
  has_dunder s = true → 1 < length (split_dunder s).
Proof.
  intros H. by destruct (split_join_from (String.length s) s "" (le_n _))
    as (_ & _ & Hlong); apply Hlong.
Qed.

(** X9.  A lookup path whose first related record is not cached costs one
    query: with no zone memoized, the zone is the first column of the
    first row that the default manager of the record answers for the
    whole path, exactly as it was given; [None] there stands for the
    default zone, a zone name is resolved by pytz, and the result is
    memoized on the record itself. *)
Theorem uncached_path_is_one_query (h : heap) l o path cache_name first rest :
  h !! l = Some o →
  odict o !! cache_name = None →
  has_dunder path = true →
  split_dunder path = first :: rest →
  odict o !! ("_" +:+ first +:+ "_cache") = None →
  get_timezone l (VStr path) cache_name h
  = (let* found := values_list_first (VRef l) path in
     let* tz := coerce_zone_name
                  (match found with VNone => VTz default_tz | _ => found end) in
     let* _ := dict_set l cache_name tz in
     ret tz) h.
Proof.
  intros Hl Hc Hd Hsplit Hfirst.
  assert (Hw : walk_cached (VRef l) (split_dunder path) h
               = Ok ((VRef l, split_dunder path), h)).
  { rewrite Hsplit. simpl. unfold bind, dict_of. by rewrite Hl, Hfirst. }
  rewrite (get_timezone_along_path h l o path cache_name l _ Hl Hc Hd Hw).
  pose proof (split_long path Hd) as Hlong.
  apply Nat.ltb_lt in Hlong. rewrite Hlong. by rewrite join_split.
Qed.

(** X10.  A lookup path all of whose parts name cached related records
    cannot be resolved: the walk uses up the parts and reading the next
    one raises [IndexError]. *)
Theorem walk_of_cached_chain_raises (h : heap) l o path cache_name :
  h !! l = Some o →
  odict o !! cache_name = None →
  has_dunder path = true →
  chain_cached h (VRef l) (split_dunder path) →
  get_timezone l (VStr path) cache_name h = Raise IndexError.
Proof.
  intros Hl Hc Hd Hchain.
  unfold get_timezone, bind at 1, dict_of. rewrite Hl, Hc.
  unfold bind at 1, lookup_timezone. simpl. rewrite Hd. simpl.
  unfold bind at 1.
  assert (Hwalk : ∀ parts v, chain_cached h v parts →
                    walk_cached v parts h = Raise IndexError).
  { induction parts as [|p ps IH]; intros v Hv; [reflexivity|].
    destruct Hv as (l0 & o0 & related & -> & Hl0 & Hrel & Hrest).
    simpl. unfold bind, dict_of. rewrite Hl0, Hrel. by apply IH. }
  by rewrite (Hwalk _ _ Hchain).
Qed.

(** *** Values for the database *)

Lemma get_prep_value_datetime (dt : datetime) :
  TestDateTimeField_get_prep_value (VDatetime dt)
  = Ok (VDatetime {| wall := utc_instant_in default_tz dt;
                     dt_tzinfo := Some utc |}).
Proof.
  destruct dt as [w [t|]].
  - apply get_prep_value_aware.
  - apply get_prep_value_naive.
Qed.

(** X11.  What the driver is handed.  [get_db_prep_value] of a date-time
    that is not prepared yet passes the UTC reading of the date-time (taken
    in the default zone if it is naive) to the driver: without a zone on
    MySQL, with the UTC zone on any other engine.  [None] is passed as it
    is. *)
Theorem db_value_is_utc_reading (connection : Connection) (dt : datetime) :
  TestDateTimeField_get_db_prep_value (VDatetime dt) connection false
  = value_to_db_datetime connection
      (VDatetime
         (if String.eqb (ENGINE connection) mysql
          then naive (utc_instant_in default_tz dt)
          else {| wall := utc_instant_in default_tz dt;
                  dt_tzinfo := Some utc |}))
  ∧ TestDateTimeField_get_db_prep_value VNone connection false
    = value_to_db_datetime connection VNone.
Proof.
  split; [|reflexivity].
  unfold TestDateTimeField_get_db_prep_value.
  rewrite get_prep_value_datetime. simpl.
  by destruct (String.eqb (ENGINE connection) mysql).
Qed.


(** X13.  A field that is filled on save.  With [auto_now], or
    [auto_now_add] on an insert, [pre_save] returns the present instant in
    UTC whatever the record held, assigns it through [__set__], and a
    [get_for_save] that follows returns that same value and leaves the
    store alone. *)
Theorem pre_save_fills_now opts field now add (h : heap) l o :
  h !! l = Some o →
  auto_now opts || (auto_now_add opts && add) = true →
  let v := VDatetime {| wall := now; dt_tzinfo := Some utc |} in
  ∃ h1,
    pre_save opts field now l add h = Ok (v, h1)
    ∧ __set__ field l v h = Ok (tt, h1)
    ∧ get_for_save field l h1 = Ok (v, h1).
Proof.
  intros Hl Hauto v.
  assert (Hv : VDatetime (fromutc db_tz now) = v).
  { unfold v, fromutc, db_tz, at_offset. simpl. by rewrite Z.add_0_r. }
  eexists. unfold pre_save. rewrite Hauto, Hv.
  unfold bind at 1. rewrite (set_store field h l o v Hl).
  split; [reflexivity|]. split; [reflexivity|].
  rewrite (get_for_save_raw_aware field _ l
             (with_dict o (dict_after_set field v (odict o))) now utc
             (lookup_insert_eq _ _ _)
             (dict_after_set_attname _ _ _) (dict_after_set_name _ _ _)).
  unfold v, utc_reading. simpl. by rewrite Z.sub_0_r.
Qed.

(** X14.  Defaults fit the storage slot.  Whatever [get_default] returns
    is [None] or a date-time that carries the UTC zone; put in the storage
    slot of a record, as a new instance does with it, it is what
    [get_for_save] returns, and the store is left alone. *)
Theorem default_is_stored_as_it_is opts field (h : heap) l o v :
  get_default opts = Ok v →
  h !! l = Some o →
  odict o !! get_attname field = Some v →
  (v = VNone ∨ ∃ u, v = VDatetime {| wall := u; dt_tzinfo := Some utc |})
  ∧ get_for_save field l h = Ok (v, h).
Proof.
  intros Hdef Hl Ha.
  assert (Hv : v = VNone
               ∨ ∃ u, v = VDatetime {| wall := u; dt_tzinfo := Some utc |}).
  { unfold get_default, TestDateTimeField_get_prep_value in Hdef.
    destruct (DateTimeField_to_python (field_default opts)) as [x|];
      [|discriminate Hdef].
    simpl in Hdef. destruct x; try discriminate Hdef.
    - inversion Hdef. by left.
    - right. simpl in Hdef.
      destruct (match dt_tzinfo d with
                | Some _ => Ok d
                | None => localize default_tz d
                end) as [d1|]; [|discriminate Hdef].
      simpl in Hdef. unfold astimezone in Hdef.
      destruct (dt_tzinfo d1) as [t|]; [|discriminate Hdef].
      inversion Hdef. eexists. unfold fromutc. simpl.
      by rewrite Z.add_0_r. }
  split; [exact Hv|].
  rewrite (get_for_save_canonical field h l o v Hl Ha).
  by destruct Hv as [-> | [u ->]].
Qed.

(** X15.  A declared zone.  A field declared with no zone, with a zone
    object, or with a name listed in [pytz.all_timezones_set] gives every
    record that zone (the default zone in the first case, [pytz.timezone]
    of the name in the last): the resolver is not used, the store is not
    touched, and the cache slot plays no part.  An entry of the instance
    dictionary under the name of the zone attribute takes its place.  A
    string that is not listed, whether or not [pytz.timezone] would accept
    it, is kept as a lookup source: the zone is computed by the resolver,
    which reads an attribute of that name or walks it as a path. *)
Theorem declared_zone_is_fixed nm source z (h : heap) l o :
  (source = VNone ∧ z = default_tz
   ∨ source = VTz z
   ∨ ∃ s, source = VStr s ∧ s ∈ all_timezones_set
          ∧ pytz_timezone s = Some z) →
  h !! l = Some o →
  (∃ field,
     TestDateTimeField_init nm source = Ok field
     ∧ name field = nm
     ∧ zone_is_property field = false
     ∧ instance_timezone field l h
       = Ok (default (VTz z) (odict o !! get_timezone_name field), h))
  ∧ (∀ s, s ∉ all_timezones_set →
       TestDateTimeField_init nm (VStr s)
       = Ok {| name := nm; timezone := VStr s |}
       ∧ zone_is_property {| name := nm; timezone := VStr s |} = true
       ∧ instance_timezone {| name := nm; timezone := VStr s |} l h
         = get_timezone l (VStr s) ("_" +:+ nm +:+ "_cache") h).
Proof.
  intros Hsrc Hl. split.
  - assert (Hfield : ∃ field,
      TestDateTimeField_init nm source = Ok field ∧ name field = nm
      ∧ (timezone field = VNone ∧ z = default_tz ∨ timezone field = VTz z)).
    { unfold TestDateTimeField_init.
      destruct Hsrc as [[-> ->] | [-> | (s & -> & Hin & Hs)]].
      - eexists. split; [reflexivity|]. split; [reflexivity|]. by left.
      - eexists. split; [reflexivity|]. split; [reflexivity|]. by right.
      - rewrite bool_decide_eq_true_2 by done. rewrite Hs.
        eexists. split; [reflexivity|]. split; [reflexivity|]. by right. }
    destruct Hfield as (field & Hinit & Hname & Htz).
    exists field. split; [done|]. split; [done|].
    unfold zone_is_property, instance_timezone.
    destruct Htz as [[-> ->] | ->]; (split; [done|]);
      unfold bind, dict_of, ret; by rewrite Hl.
  - intros s Hout. unfold TestDateTimeField_init.
    by rewrite bool_decide_eq_false_2.
Qed.

(** *** What reading leaves alone *)




End Fields.

(** ** The sample records, run

    The process default zone is America/Chicago throughout. *)

(** The calendar and the string helpers agree with Python on samples. *)
Example toordinal_samples :
  ymd2ord 1 1 1 = 1%Z ∧ ymd2ord 2020 2 29 = 737484%Z
  ∧ ymd2ord 2021 3 10 = 737859%Z.
Proof. repeat split; reflexivity. Qed.

Example split_samples :
  split_dunder "venue__tz" = ["venue"; "tz"]
  ∧ split_dunder "a___b" = ["a"; "_b"]
  ∧ split_dunder "a____b" = ["a"; ""; "b"]
  ∧ split_dunder "__a__" = [""; "a"; ""]
  ∧ split_dunder "tz" = ["tz"]
  ∧ split_dunder "" = [""]
  ∧ join_dunder ["a"; "b"; "c"] = "a__b__c"
  ∧ has_dunder "venue__tz" = true ∧ has_dunder "venue_tz" = false.
Proof. repeat split; reflexivity. Qed.

(** C1 on the loaded record: nine o'clock, assigned to a field whose zone
    is Europe/Moscow, is saved as 06:00 UTC, while [get_prep_value] makes
    it 15:00 UTC. *)
Lemma C1_witness :
  __set__ when_in_moscow 1 (VDatetime nine_o_clock) loaded_record
  = Ok (tt, assigned_record)
  ∧ get_for_save chicago sample_timezone no_datetime_format sample_unicode
      when_in_moscow 1 assigned_record
    = Ok (VDatetime {| wall := reading 2021 3 10 6 0 0;
                       dt_tzinfo := Some utc |}, assigned_record)
  ∧ TestDateTimeField_get_prep_value chicago no_datetime_format
      sample_unicode (VDatetime nine_o_clock)
    = Ok (VDatetime {| wall := reading 2021 3 10 15 0 0;
                       dt_tzinfo := Some utc |})
  ∧ returned (get_for_save chicago sample_timezone no_datetime_format
                sample_unicode when_in_moscow 1 assigned_record)
    ≠ TestDateTimeField_get_prep_value chicago no_datetime_format
        sample_unicode (VDatetime nine_o_clock).
Proof.
  assert (Hset : __set__ when_in_moscow 1 (VDatetime nine_o_clock)
                   loaded_record = Ok (tt, assigned_record))
    by (vm_compute; reflexivity).
  assert (Htz : instance_timezone chicago sample_timezone when_in_moscow 1
                  assigned_record = Ok (VTz moscow, assigned_record))
    by (vm_compute; reflexivity).
  destruct (C1_naive_is_localized_in_resolved_zone
              chicago sample_timezone no_datetime_format sample_unicode
              when_in_moscow loaded_record 1 _ (reading 2021 3 10 9 0 0)
              moscow assigned_record assigned_record eq_refl Hset Htz)
    as (local & _ & _ & Hsave & Hdiffer).
  split; [exact Hset|]. split; [exact Hsave|].
  split; [vm_compute; reflexivity|].
  apply Hdiffer. intros E. vm_compute in E. discriminate E.
Defined.

(** C3 on the loaded record, whose cache slot holds a date-time: the read
    before the assignment returns the cached value, the read after it
    returns the new one. *)
Lemma C3_witness :
  __get__ chicago sample_timezone when_in_moscow 1 loaded_record
  = Ok (VDatetime {| wall := reading 2020 1 1 3 0 0;
                     dt_tzinfo := Some moscow |}, loaded_record)
  ∧ __set__ when_in_moscow 1 (VDatetime nine_o_clock) loaded_record
    = Ok (tt, assigned_record)
  ∧ returned (__get__ chicago sample_timezone when_in_moscow 1
                assigned_record)
    = Ok (VDatetime {| wall := reading 2021 3 10 9 0 0;
                       dt_tzinfo := Some moscow |})
  ∧ __set__ when_in_moscow 1 VNone loaded_record = Ok (tt, blank_record)
  ∧ __get__ chicago sample_timezone when_in_moscow 1 blank_record
    = Ok (VNone, blank_record).
Proof.
  destruct (C3_set_stores_and_invalidates chicago sample_timezone
              when_in_moscow loaded_record 1 _ (VDatetime nine_o_clock)
              eq_refl)
    as (Hset & _ & _ & _ & Hstale & _ & Hget).
  destruct (C3_set_stores_and_invalidates chicago sample_timezone
              when_in_moscow loaded_record 1 _ VNone eq_refl)
    as (Hset' & _ & _ & _ & _ & Hget' & _).
  split; [apply Hstale; vm_compute; reflexivity|].
  split; [rewrite Hset; vm_compute; reflexivity|].
  split.
  - destruct (Hget nine_o_clock moscow assigned_record eq_refl)
      as (o'' & _ & Hg).
    { vm_compute; reflexivity. }
    change (<[1:=with_dict (plain_object _) _]> loaded_record)
      with assigned_record in Hg.
    rewrite Hg. reflexivity.
  - split; [rewrite Hset'; vm_compute; reflexivity|].
    specialize (Hget' eq_refl).
    change (<[1:=with_dict (plain_object _) _]> loaded_record)
      with blank_record in Hget'.
    exact Hget'.
Defined.

(** C6 on three records: a cached date-time, a stored date-time and a raw
    [None]. *)
Lemma C6_witness :
  __get__ chicago sample_timezone when_in_moscow 1 loaded_record
  = Ok (VDatetime {| wall := reading 2020 1 1 3 0 0;
                     dt_tzinfo := Some moscow |}, loaded_record)
  ∧ returned (__get__ chicago sample_timezone when_in_moscow 1
                fresh_from_storage)
    = Ok (VDatetime {| wall := reading 2021 3 10 9 0 0;
                       dt_tzinfo := Some moscow |})
  ∧ __get__ chicago sample_timezone when_in_moscow 1 blank_record
    = Ok (VNone, blank_record).
Proof.
  destruct (C6_get_cases chicago sample_timezone when_in_moscow
              loaded_record 1 _ eq_refl) as (Hfast & _ & _).
  destruct (C6_get_cases chicago sample_timezone when_in_moscow
              fresh_from_storage 1 _ eq_refl) as (_ & Hstored & _).
  destruct (C6_get_cases chicago sample_timezone when_in_moscow
              blank_record 1 _ eq_refl) as (_ & _ & Hraw).
  split; [apply Hfast; vm_compute; reflexivity|].
  split.
  - destruct (Hstored (naive (reading 2021 3 10 6 0 0)) moscow
                fresh_from_storage)
      as (as_utc & o1 & Hutc & _ & _ & Hg).
    { intros c E. vm_compute in E. discriminate E. }
    { vm_compute; reflexivity. }
    { vm_compute; reflexivity. }
    rewrite Hg. inversion Hutc. reflexivity.
  - apply Hraw.
    + intros c E. vm_compute in E. discriminate E.
    + vm_compute; reflexivity.
    + vm_compute; reflexivity.
    + reflexivity.
Defined.

(** The maximum length of the field itself is not what is checked: with
    the setting at 100 a field of maximum length 5 is constructed, though
    the longest identifier has fifteen characters, and with the setting at
    10 a field of maximum length 100 is refused. *)
Lemma C8_counterexample :
  longest sample_choices = 15
  ∧ TimeZoneField_init "America/Chicago" 100 sample_choices [] max_length_5
    = Ok {| max_length := 5; default_value := VStr "America/Chicago";
            choices := [] |}
  ∧ TimeZoneField_init "America/Chicago" 10 sample_choices [] max_length_100
    = Raise MisconfiguredMaxLength.
Proof. repeat split; vm_compute; reflexivity. Qed.

(** C8 on the sample catalogue, whose longest identifier has fifteen
    characters. *)
Lemma C8_witness :
  TimeZoneField_init "America/Chicago" 100 sample_choices [] no_kwargs
  = Ok {| max_length := 100; default_value := VStr "America/Chicago";
          choices := [] |}
  ∧ TimeZoneField_init "America/Chicago" 10 sample_choices [] no_kwargs
    = Raise MisconfiguredMaxLength.
Proof.
  destruct (C8_max_length_checked_at_construction
              "America/Chicago" 100 sample_choices [] no_kwargs)
    as (_ & Hfits & _).
  destruct (C8_max_length_checked_at_construction
              "America/Chicago" 10 sample_choices [] no_kwargs)
    as (_ & _ & Hshort).
  split.
  - apply Hfits. vm_compute. lia.
  - apply Hshort. vm_compute. lia.
Defined.

(** pytz knows the sample catalogue. *)
Lemma sample_choices_known (s : string) :
  s ∈ sample_choices → ∃ z, sample_timezone s = Some z ∧ zone z = s.
Proof.
  unfold sample_choices. intros Hs.
  repeat (apply elem_of_cons in Hs as [-> | Hs]; [by eexists|]).
  by apply elem_of_nil in Hs.
Qed.

(** C9 on the sample catalogue. *)
Lemma C9_witness :
  (∃ z, TimeZoneField_to_python sample_timezone sample_unicode
          sample_choices (VStr "UTC") = Ok (VTz z)
        ∧ zone z = "UTC"
        ∧ TimeZoneField_get_prep_value sample_unicode (VTz z) = VStr "UTC")
  ∧ (∃ z, TimeZoneField_to_python sample_timezone sample_unicode
            sample_choices (VTz moscow) = Ok (VTz z)
          ∧ zone z = "Europe/Moscow"
          ∧ TimeZoneField_get_prep_value sample_unicode (VTz z)
            = VStr "Europe/Moscow")
  ∧ TimeZoneField_to_python sample_timezone sample_unicode sample_choices
      (VStr "Not/AZone") = Raise InvalidTimeZone.
Proof.
  destruct (C9_to_python_validates sample_timezone sample_unicode
              sample_choices sample_choices_known) as (_ & Hin & Hout).
  assert (Hutc : "UTC" ∈ sample_choices) by (by left).
  assert (Hmsk : "Europe/Moscow" ∈ sample_choices) by (right; by left).
  split; [exact (Hin (VStr "UTC") ltac:(discriminate) Hutc)|].
  split; [exact (Hin (VTz moscow) ltac:(discriminate) Hmsk)|].
  apply Hout; [discriminate|].
  unfold sample_choices. simpl. intros Hs.
  repeat (apply elem_of_cons in Hs as [E | Hs]; [discriminate E|]).
  by apply elem_of_nil in Hs.
Defined.

(** A storage slot that holds an aware Europe/Moscow date-time is saved
    with that zone, not with UTC. *)
Lemma C4_counterexample :
  ∃ dt,
    get_for_save chicago sample_timezone no_datetime_format sample_unicode
      when_in_moscow 1 moscow_in_storage
    = Ok (VDatetime dt, moscow_in_storage)
    ∧ dt = {| wall := reading 2021 3 10 9 0 0; dt_tzinfo := Some moscow |}
    ∧ dt_tzinfo dt ≠ Some utc.
Proof.
  eexists. split; [vm_compute; reflexivity|]. split; [reflexivity|].
  simpl. intros E. inversion E.
Qed.

(** C4 on four records: [None], a naive and an aware date-time in the
    storage slot, and a raw value alone. *)
Lemma C4_witness :
  get_for_save chicago sample_timezone no_datetime_format sample_unicode
    when_in_moscow 1 null_in_storage = Ok (VNone, null_in_storage)
  ∧ get_for_save chicago sample_timezone no_datetime_format sample_unicode
      when_in_moscow 1 fresh_from_storage
    = Ok (VDatetime {| wall := reading 2021 3 10 6 0 0;
                       dt_tzinfo := Some utc |}, fresh_from_storage)
  ∧ get_for_save chicago sample_timezone no_datetime_format sample_unicode
      when_in_moscow 1 moscow_in_storage
    = Ok (VDatetime {| wall := reading 2021 3 10 9 0 0;
                       dt_tzinfo := Some moscow |}, moscow_in_storage)
  ∧ (∃ u, VDatetime {| wall := reading 2021 3 10 6 0 0;
                       dt_tzinfo := Some utc |}
          = VDatetime {| wall := u; dt_tzinfo := Some utc |}).
Proof.
  destruct (C4_get_for_save_normalizes chicago sample_timezone
              no_datetime_format sample_unicode when_in_moscow
              null_in_storage 1 _ eq_refl) as (Hnone & _).
  destruct (C4_get_for_save_normalizes chicago sample_timezone
              no_datetime_format sample_unicode when_in_moscow
              fresh_from_storage 1 _ eq_refl) as (_ & Hnaive & _).
  destruct (C4_get_for_save_normalizes chicago sample_timezone
              no_datetime_format sample_unicode when_in_moscow
              moscow_in_storage 1 _ eq_refl) as (_ & _ & Haware & _).
  destruct (C4_get_for_save_normalizes chicago sample_timezone
              no_datetime_format sample_unicode when_in_moscow
              assigned_record 1 _ eq_refl) as (_ & _ & _ & Hraw).
  split; [apply Hnone; vm_compute; reflexivity|].
  split; [apply Hnaive; vm_compute; reflexivity|].
  split; [apply Haware; vm_compute; reflexivity|].
  destruct (Hraw (VDatetime {| wall := reading 2021 3 10 6 0 0;
                               dt_tzinfo := Some utc |}) assigned_record)
    as [E | Hutc].
  - vm_compute; reflexivity.
  - vm_compute; reflexivity.
  - discriminate E.
  - exact Hutc.
Defined.



(** Two records that differ in the cache slot only, and that
    [get_for_save] answers differently. *)
Lemma C7_counterexample :
  (λ o, with_dict o (delete "_when_cache" (odict o)))
    <$> zone_changed_after_read = zone_changed_unread
  ∧ returned (get_for_save chicago sample_timezone no_datetime_format
                sample_unicode when_by_tz 1 zone_changed_after_read)
    = Ok (VDatetime {| wall := reading 2021 3 10 6 0 0;
                       dt_tzinfo := Some utc |})
  ∧ returned (get_for_save chicago sample_timezone no_datetime_format
                sample_unicode when_by_tz 1 zone_changed_unread)
    = Ok (VDatetime {| wall := reading 2021 3 10 15 0 0;
                       dt_tzinfo := Some utc |}).
Proof. repeat split; vm_compute; reflexivity. Qed.

(** C7 on the record whose zone attribute changed. *)
Lemma C7_witness :
  get_for_save chicago sample_timezone no_datetime_format sample_unicode
    when_by_tz 1 zone_changed_unread
  = Ok (VDatetime {| wall := reading 2021 3 10 15 0 0;
                     dt_tzinfo := Some utc |}, zone_changed_resolved)
  ∧ get_for_save chicago sample_timezone no_datetime_format sample_unicode
      when_by_tz 1 zone_changed_resolved
    = Ok (VDatetime {| wall := reading 2021 3 10 15 0 0;
                       dt_tzinfo := Some utc |}, zone_changed_resolved)
  ∧ get_for_save chicago sample_timezone no_datetime_format sample_unicode
      when_by_tz 1 zone_changed_after_read
    = Ok (VDatetime {| wall := reading 2021 3 10 6 0 0;
                       dt_tzinfo := Some utc |}, zone_changed_after_read).
Proof.
  assert (Hfirst :
    get_for_save chicago sample_timezone no_datetime_format sample_unicode
      when_by_tz 1 zone_changed_unread
    = Ok (VDatetime {| wall := reading 2021 3 10 15 0 0;
                       dt_tzinfo := Some utc |}, zone_changed_resolved))
    by (vm_compute; reflexivity).
  assert (Hon : ∀ d, resolves_on_record when_by_tz d = true)
    by (intros d; reflexivity).
  destruct (C7_save_twice chicago sample_timezone no_datetime_format
              sample_unicode when_by_tz zone_changed_unread 1 _ _ _
              eq_refl (Hon _) Hfirst) as (Hsecond & _ & _).
  assert (Hread :
    get_for_save chicago sample_timezone no_datetime_format sample_unicode
      when_by_tz 1 zone_changed_after_read
    = Ok (VDatetime {| wall := reading 2021 3 10 6 0 0;
                       dt_tzinfo := Some utc |}, zone_changed_after_read))
    by (vm_compute; reflexivity).
  destruct (C7_save_twice chicago sample_timezone no_datetime_format
              sample_unicode when_by_tz zone_changed_after_read 1 _ _ _
              eq_refl (Hon _) Hread) as (_ & _ & Hconsult).
  assert (Hzone :
    VDatetime {| wall := reading 2021 3 10 6 0 0; dt_tzinfo := Some utc |}
    = VDatetime {| wall := (reading 2021 3 10 9 0 0
                            - offset_at_wall moscow (reading 2021 3 10 9 0 0))%Z;
                   dt_tzinfo := Some utc |}).
  { apply (Hconsult (VDatetime {| wall := reading 2021 3 10 9 0 0;
                                  dt_tzinfo := Some moscow |}));
      vm_compute; reflexivity. }
  split; [exact Hfirst|]. split; [exact Hsecond|]. exact Hread.
Defined.

(** A record on which saving twice does not give the same value twice.
    The field [when] takes its zone from the attribute [when] of the
    cached venue.  The first [get_for_save] returns 06:00 UTC, and the
    resolver memoizes the zone in the dictionary of the venue, under the
    cache key of the field; the second one, with no assignment in between,
    follows that key as if it were a cached related record and raises
    [IndexError]. *)
Lemma second_save_raises_after_walk :
  get_for_save chicago sample_timezone no_datetime_format sample_unicode
    when_by_venue_when 1 venue_cached
  = Ok (VDatetime {| wall := reading 2021 3 10 6 0 0;
                     dt_tzinfo := Some utc |}, venue_memoized)
  ∧ resolves_on_record when_by_venue_when
      (<["when" := VDatetime nine_o_clock]> {[ "_venue_cache" := VRef 2 ]})
    = false
  ∧ get_for_save chicago sample_timezone no_datetime_format sample_unicode
      when_by_venue_when 1 venue_memoized
    = Raise IndexError.
Proof. repeat split; vm_compute; reflexivity. Qed.

(** ** The further properties on the sample records *)

Lemma set_overwrites_witness :
  (let* _ := __set__ when_in_moscow 1 VNone in
   __set__ when_in_moscow 1 (VDatetime nine_o_clock)) loaded_record
  = Ok (tt, assigned_record).
Proof.
  rewrite (set_overwrites when_in_moscow loaded_record 1 _ VNone
             (VDatetime nine_o_clock) eq_refl).
  vm_compute; reflexivity.
Defined.

Lemma set_frame_witness :
  __set__ when_by_tz 1 VNone zone_changed_after_read
  = Ok (tt, zone_changed_blank)
  ∧ ∃ o', zone_changed_blank !! 1 = Some o'
          ∧ odict o' !! "tz" = Some (VStr "America/Chicago")
          ∧ odict o' !! "when_timezone" = None.
Proof.
  assert (Hset : __set__ when_by_tz 1 VNone zone_changed_after_read
                 = Ok (tt, zone_changed_blank)) by (vm_compute; reflexivity).
  destruct (set_frame when_by_tz zone_changed_after_read 1 _ VNone
              zone_changed_blank eq_refl Hset)
    as (_ & o' & Hl' & _ & _ & Hzone & Hother).
  split; [exact Hset|]. exists o'. split; [exact Hl'|]. split.
  - rewrite (Hother "tz"); [vm_compute; reflexivity | discriminate ..].
  - exact Hzone.
Defined.

Lemma get_twice_witness :
  __get__ chicago sample_timezone when_in_moscow 1 fresh_from_storage
  = Ok (VDatetime {| wall := reading 2021 3 10 9 0 0;
                     dt_tzinfo := Some moscow |}, read_from_storage)
  ∧ __get__ chicago sample_timezone when_in_moscow 1 read_from_storage
    = Ok (VDatetime {| wall := reading 2021 3 10 9 0 0;
                       dt_tzinfo := Some moscow |}, read_from_storage).
Proof.
  assert (Hfirst :
    __get__ chicago sample_timezone when_in_moscow 1 fresh_from_storage
    = Ok (VDatetime {| wall := reading 2021 3 10 9 0 0;
                       dt_tzinfo := Some moscow |}, read_from_storage))
    by (vm_compute; reflexivity).
  split; [exact Hfirst|].
  exact (get_twice chicago sample_timezone when_in_moscow fresh_from_storage
           1 _ _ _ eq_refl Hfirst).
Defined.

Lemma get_then_save_agree_witness :
  __get__ chicago sample_timezone when_in_moscow 1 assigned_record
  = Ok (VDatetime {| wall := reading 2021 3 10 9 0 0;
                     dt_tzinfo := Some moscow |}, assigned_and_read)
  ∧ ∃ t, Some moscow = Some t
         ∧ get_for_save chicago sample_timezone no_datetime_format
             sample_unicode when_in_moscow 1 assigned_and_read
           = Ok (VDatetime {| wall := utc_reading (reading 2021 3 10 9 0 0) t;
                              dt_tzinfo := Some utc |}, assigned_and_read).
Proof.
  assert (Hread :
    __get__ chicago sample_timezone when_in_moscow 1 assigned_record
    = Ok (VDatetime {| wall := reading 2021 3 10 9 0 0;
                       dt_tzinfo := Some moscow |}, assigned_and_read))
    by (vm_compute; reflexivity).
  split; [exact Hread|].
  assert (Hmiss : ∀ c,
    ({[ "when" := VDatetime nine_o_clock ]} : gmap string value)
      !! "_when_cache" ≠ Some (VDatetime c))
    by (intros c E; vm_compute in E; discriminate E).
  exact (get_then_save_agree chicago sample_timezone no_datetime_format
           sample_unicode when_in_moscow assigned_record 1 _ nine_o_clock
           {| wall := reading 2021 3 10 9 0 0; dt_tzinfo := Some moscow |}
           assigned_and_read eq_refl Hmiss eq_refl eq_refl Hread).
Defined.

(** A reading that the zone skips does not come back: 02:30 on the night
    the clocks go forward in Chicago. *)
Example skipped_reading_is_not_at_its_offset :
  offset_at_utc chicago
    (utc_instant_in chicago (naive (reading 2021 3 14 2 30 0)))
  ≠ offset_at_wall chicago (reading 2021 3 14 2 30 0).
Proof. vm_compute. discriminate. Qed.

Lemma save_reload_get_witness :
  returned (get_for_save chicago sample_timezone no_datetime_format
              sample_unicode when_in_moscow 1 assigned_record)
  = Ok (VDatetime {| wall := reading 2021 3 10 6 0 0;
                     dt_tzinfo := Some utc |})
  ∧ returned (__get__ chicago sample_timezone when_in_moscow 1
                fresh_from_storage)
    = Ok (VDatetime {| wall := reading 2021 3 10 9 0 0;
                       dt_tzinfo := Some moscow |}).
Proof.
  assert (Hset : __set__ when_in_moscow 1 (VDatetime nine_o_clock)
                   loaded_record = Ok (tt, assigned_record))
    by (vm_compute; reflexivity).
  assert (Htz : instance_timezone chicago sample_timezone when_in_moscow 1
                  assigned_record = Ok (VTz moscow, assigned_record))
    by (vm_compute; reflexivity).
  assert (Htzr : instance_timezone chicago sample_timezone when_in_moscow 1
                   fresh_from_storage = Ok (VTz moscow, fresh_from_storage))
    by (vm_compute; reflexivity).
  apply (save_reload_get chicago sample_timezone no_datetime_format
           sample_unicode when_in_moscow loaded_record 1 _ nine_o_clock
           moscow assigned_record assigned_record fresh_from_storage 1
           (plain_object
              {[ "when_utc" := VDatetime (naive (reading 2021 3 10 6 0 0)) ]})
           (naive (reading 2021 3 10 6 0 0)) fresh_from_storage
           eq_refl Hset Htz).
  - reflexivity.
  - reflexivity.
  - intros c E. vm_compute in E. discriminate E.
  - reflexivity.
  - right. reflexivity.
  - exact Htzr.
Defined.


Lemma resolver_memoizes_on_reached_record_witness :
  get_timezone chicago sample_timezone 1 (VStr "venue__when") "_when_cache"
    venue_cached
  = Ok (VTz moscow, venue_memoized)
  ∧ venue_memoized !! 1 = venue_cached !! 1
  ∧ venue_memoized !! 2
    = Some (plain_object
              (<["_when_cache" := VTz moscow]>
                 {[ "when" := VStr "Europe/Moscow" ]})).
Proof.
  assert (Hget :
    get_timezone chicago sample_timezone 1 (VStr "venue__when") "_when_cache"
      venue_cached = Ok (VTz moscow, venue_memoized))
    by (vm_compute; reflexivity).
  destruct (resolver_memoizes_on_reached_record chicago sample_timezone
              venue_cached 1 _ "venue__when" "_when_cache" 2 _ ["when"]
              (VTz moscow) venue_memoized
              eq_refl eq_refl eq_refl eq_refl eq_refl ltac:(discriminate)
              Hget) as (Hasked & Hreached & _).
  split; [exact Hget|]. split; [exact Hasked|]. exact Hreached.
Defined.

Lemma plain_attribute_None_witness :
  instance_timezone chicago sample_timezone when_by_tz 1 zone_unset_record
  = Ok (VNone,
        store_set zone_unset_record 1
          (plain_object
             (<["when" := VDatetime nine_o_clock]> {[ "tz" := VNone ]}))
          "_when_cache" VNone)
  ∧ get_for_save chicago sample_timezone no_datetime_format sample_unicode
      when_by_tz 1 zone_unset_record = Raise AttributeError
  ∧ __get__ chicago sample_timezone when_by_tz 1 zone_unset_record
    = Raise AttributeError.
Proof.
  exact (plain_attribute_None_is_not_defaulted chicago sample_timezone
           no_datetime_format sample_unicode when_by_tz zone_unset_record 1
           _ "tz" (reading 2021 3 10 9 0 0)
           eq_refl eq_refl eq_refl eq_refl eq_refl eq_refl eq_refl).
Defined.

Lemma uncached_path_is_one_query_witness :
  get_timezone chicago sample_timezone 1 (VStr "venue__tz") "_when_cache"
    venue_in_database
  = Ok (VTz moscow, venue_in_database_resolved).
Proof.
  rewrite (uncached_path_is_one_query chicago sample_timezone
             venue_in_database 1 _ "venue__tz" "_when_cache" "venue" ["tz"]
             eq_refl eq_refl eq_refl eq_refl eq_refl).
  vm_compute; reflexivity.
Defined.

Lemma walk_of_cached_chain_raises_witness :
  get_timezone chicago sample_timezone 1 (VStr "venue__city") "_when_cache"
    venue_and_city_cached = Raise IndexError
  ∧ get_for_save chicago sample_timezone no_datetime_format sample_unicode
      when_by_venue_city 1 venue_and_city_cached = Raise IndexError.
Proof.
  split; [|vm_compute; reflexivity].
  apply (walk_of_cached_chain_raises chicago sample_timezone
           venue_and_city_cached 1 _ "venue__city" "_when_cache"
           eq_refl eq_refl eq_refl).
  eexists 1, _, (VRef 2).
  split; [reflexivity|]. split; [reflexivity|]. split; [reflexivity|].
  eexists 2, _, (VRef 3).
  split; [reflexivity|]. split; [reflexivity|]. split; [reflexivity|].
  exact I.
Defined.


Lemma pre_save_fills_now_witness :
  ∃ h1,
    pre_save chicago sample_timezone no_datetime_format sample_unicode
      filled_on_save when_in_moscow (reading 2021 3 10 12 0 0) 1 false
      loaded_record
    = Ok (VDatetime {| wall := reading 2021 3 10 12 0 0;
                       dt_tzinfo := Some utc |}, h1)
    ∧ get_for_save chicago sample_timezone no_datetime_format sample_unicode
        when_in_moscow 1 h1
      = Ok (VDatetime {| wall := reading 2021 3 10 12 0 0;
                         dt_tzinfo := Some utc |}, h1).
Proof.
  destruct (pre_save_fills_now chicago sample_timezone no_datetime_format
              sample_unicode filled_on_save when_in_moscow
              (reading 2021 3 10 12 0 0) false loaded_record 1 _
              eq_refl eq_refl) as (h1 & Hpre & _ & Hsave).
  exists h1. split; [exact Hpre | exact Hsave].
Defined.

Lemma default_is_stored_as_it_is_witness :
  get_default chicago no_datetime_format sample_unicode default_nine
  = Ok (VDatetime {| wall := reading 2021 3 10 15 0 0;
                     dt_tzinfo := Some utc |})
  ∧ get_for_save chicago sample_timezone no_datetime_format sample_unicode
      when_in_moscow 1 new_instance
    = Ok (VDatetime {| wall := reading 2021 3 10 15 0 0;
                       dt_tzinfo := Some utc |}, new_instance).
Proof.
  assert (Hdef :
    get_default chicago no_datetime_format sample_unicode default_nine
    = Ok (VDatetime {| wall := reading 2021 3 10 15 0 0;
                       dt_tzinfo := Some utc |}))
    by (vm_compute; reflexivity).
  split; [exact Hdef|].
  exact (proj2 (default_is_stored_as_it_is chicago sample_timezone
                  no_datetime_format sample_unicode default_nine
                  when_in_moscow new_instance 1 _ _ Hdef eq_refl eq_refl)).
Defined.

Lemma declared_zone_is_fixed_witness :
  (∃ field,
     TestDateTimeField_init lenient_timezone sample_all_timezones "when"
       (VStr "Europe/Moscow") = Ok field
     ∧ name field = "when"
     ∧ zone_is_property field = false
     ∧ instance_timezone chicago lenient_timezone field 1 loaded_record
       = Ok (VTz moscow, loaded_record))
  ∧ (∃ field,
       TestDateTimeField_init lenient_timezone sample_all_timezones "when"
         VNone = Ok field
       ∧ name field = "when"
       ∧ zone_is_property field = false
       ∧ instance_timezone chicago lenient_timezone field 1 loaded_record
         = Ok (VTz chicago, loaded_record))
  ∧ lenient_timezone "utc" = Some utc
  ∧ TestDateTimeField_init lenient_timezone sample_all_timezones "when"
      (VStr "utc")
    = Ok {| name := "when"; timezone := VStr "utc" |}
  ∧ instance_timezone chicago lenient_timezone
      {| name := "when"; timezone := VStr "utc" |} 1 assigned_record
    = Raise AttributeError.
Proof.
  assert (Hmsk : "Europe/Moscow" ∈ sample_all_timezones)
    by (apply (bool_decide_unpack _); vm_compute; exact I).
  assert (Hutc : "utc" ∉ sample_all_timezones)
    by (apply (bool_decide_unpack _); vm_compute; exact I).
  destruct (declared_zone_is_fixed chicago lenient_timezone
              sample_all_timezones "when" (VStr "Europe/Moscow") moscow
              loaded_record 1 _
              (or_intror (or_intror
                 (ex_intro _ "Europe/Moscow"
                    (conj eq_refl (conj Hmsk eq_refl)))))
              eq_refl) as (Hlisted & _).
  destruct (declared_zone_is_fixed chicago lenient_timezone
              sample_all_timezones "when" VNone chicago loaded_record 1 _
              (or_introl (conj eq_refl eq_refl)) eq_refl) as (Hnone & _).
  destruct (declared_zone_is_fixed chicago lenient_timezone
              sample_all_timezones "when" VNone chicago assigned_record 1 _
              (or_introl (conj eq_refl eq_refl)) eq_refl) as (_ & Hunlisted).
  destruct (Hunlisted "utc" Hutc) as (Hinit & _ & Hlookup).
  split.
  { destruct Hlisted as (field & Hfield & Hname & Hprop & Htz).
    exists field. split; [exact Hfield|]. split; [exact Hname|].
    split; [exact Hprop|]. rewrite Htz. unfold get_timezone_name.
    rewrite Hname. reflexivity. }
  split.
  { destruct Hnone as (field & Hfield & Hname & Hprop & Htz).
    exists field. split; [exact Hfield|]. split; [exact Hname|].
    split; [exact Hprop|]. rewrite Htz. unfold get_timezone_name.
    rewrite Hname. reflexivity. }
  split; [reflexivity|]. split; [exact Hinit|].
  rewrite Hlookup. vm_compute; reflexivity.
Defined.

